(** * taskcircuit-backend: the request handlers of [server.js] over the
      Prisma schema of [prisma/schema.prisma]

    The Express handlers are embedded as state-passing functions over a
    relational store with the three tables of the schema.  Every
    [prisma.<model>.<operation>] call is a store operation that also
    records itself in a call log, so that "no store operation was run"
    is an observable fact of the final state.

    Conventions.
    - A JavaScript string is a [string]; each [ascii] is one code unit.
    - A JSON number is an arbitrary rational ([Q]); how the engine prints
      a number ([Number::toString]) is a field of the [Runtime] class,
      like the other library primitives the handlers call (bcrypt,
      jsonwebtoken).
    - Rows are kept in creation order, which is what
      [orderBy: { createdAt: 'asc' }] observes; the timestamps themselves
      are not stored.
    - The database itself does not fail, and the limits of its columns
      (the length of a string column, the range of a [DateTime] column)
      are not modelled; the [catch] branches (500) are reached where the
      handler's own code raises inside a [try] (the dereference of
      [task.board] when the row has no board, [new Date] of an object
      that has no primitive value) and where the Prisma client refuses
      its argument (a [Date] object that is invalid).
    - An exception raised outside every [try] of a handler escapes it:
      the handler sends nothing, and the embedding marks this outcome by
      the response [uncaught]. *)

From Stdlib Require Import ZArith QArith List String Ascii Bool Lia.
From Stdlib Require Import DecimalString DecimalPos.
Import ListNotations.
Local Open Scope string_scope.
Local Open Scope Z_scope.
Set Warnings "-register-all".

(* ------------------------------------------------------------------ *)
(** ** JavaScript values of a JSON body *)

Inductive jsval : Type :=
| JUndefined
| JNull
| JBool (b : bool)
| JNum (q : Q)
| JStr (s : string)
| JArr (elems : list jsval)
| JObj (fields : list (string * jsval)).

(** ToBoolean: what [!v], [v || d] and [v ? a : b] test. *)
Definition truthy (v : jsval) : bool :=
  match v with
  | JUndefined | JNull => false
  | JBool b => b
  | JNum q => negb (Qnum q =? 0)
  | JStr s => negb (s =? "")%string
  | JArr _ | JObj _ => true
  end.

(** [v ?? d] *)
Definition nullish_or (v d : jsval) : jsval :=
  match v with
  | JUndefined | JNull => d
  | _ => v
  end.

(** [v || d] *)
Definition or_else (v d : jsval) : jsval := if truthy v then v else d.

(** [arr.includes(v)] for an array of string literals: SameValueZero, so
    only a string can be found. *)
Definition includes (arr : list string) (v : jsval) : bool :=
  match v with
  | JStr s => existsb (String.eqb s) arr
  | _ => false
  end.

(** [v === 'lit'] *)
Definition strict_eq_str (v : jsval) (lit : string) : bool :=
  match v with
  | JStr s => (s =? lit)%string
  | _ => false
  end.

Definition is_undefined (v : jsval) : bool :=
  match v with JUndefined => true | _ => false end.

(** Whether a JSON object has the key as an own property. *)
Definition has_key (k : string) (fields : list (string * jsval)) : bool :=
  existsb (fun kv => (fst kv =? k)%string) fields.

(** Truthiness of an optional string ([None] is [undefined]). *)
Definition truthy_str (o : option string) : bool :=
  match o with
  | Some s => negb (s =? "")%string
  | None => false
  end.

(* ------------------------------------------------------------------ *)
(** ** Strings: regular-expression tests and [parseInt] *)

Definition code (c : ascii) : Z := Z.of_N (N_of_ascii c).

Definition in_range (lo hi : Z) (c : ascii) : bool :=
  (lo <=? code c) && (code c <=? hi).

Fixpoint exists_char (p : ascii -> bool) (s : string) : bool :=
  match s with
  | EmptyString => false
  | String c s' => p c || exists_char p s'
  end.

(** [/[A-Z]/.test(s)], [/[a-z]/.test(s)], [/[0-9]/.test(s)] *)
Definition test_upper (s : string) : bool := exists_char (in_range 65 90) s.
Definition test_lower (s : string) : bool := exists_char (in_range 97 122) s.
Definition test_digit (s : string) : bool := exists_char (in_range 48 57) s.

Definition str_length (s : string) : Z := Z.of_nat (String.length s).

(** StrWhiteSpaceChar among the code units below 256. *)
Definition is_white_space (c : ascii) : bool :=
  let n := code c in
  (n =? 9) || (n =? 10) || (n =? 11) || (n =? 12) || (n =? 13)
  || (n =? 32) || (n =? 160).

Fixpoint trim_start (s : string) : string :=
  match s with
  | String c s' => if is_white_space c then trim_start s' else s
  | EmptyString => s
  end.

(** The longest prefix of decimal digits, read as a number; [acc] is
    [None] until a digit has been seen. *)
Fixpoint read_digits (acc : option Z) (s : string) : option Z :=
  match s with
  | String c s' =>
      if in_range 48 57 c
      then read_digits
             (Some (10 * match acc with Some a => a | None => 0 end
                    + (code c - 48))) s'
      else acc
  | EmptyString => acc
  end.

(** [parseInt(s, 10)] on a string; [None] is NaN. *)
Definition parseInt_string (s : string) : option Z :=
  match trim_start s with
  | String "-" s' => option_map Z.opp (read_digits None s')
  | String "+" s' => read_digits None s'
  | s' => read_digits None s'
  end.

Fixpoint join (sep : string) (l : list string) : string :=
  match l with
  | [] => ""
  | [x] => x
  | x :: l' => x ++ sep ++ join sep l'
  end.

(** [s.split(' ')] *)
Fixpoint split_space (cur : string) (s : string) : list string :=
  match s with
  | EmptyString => [cur]
  | String c s' =>
      if (code c =? 32) then cur :: split_space "" s'
      else split_space (cur ++ String c "") s'
  end.

(* ------------------------------------------------------------------ *)
(** ** Library primitives and environment *)

(** The claims a token carries: [{ userId, email }]. *)
Module Token.
Record payload : Type := mk { userId : string; email : string }.
End Token.

Inductive jwt_error : Type :=
| JsonWebTokenError   (* malformed token or signature mismatch *)
| TokenExpiredError.

Inductive jwt_result : Type :=
| JwtErr (e : jwt_error)
| JwtOk (p : Token.payload).

(** A stored [DateTime] is kept as the argument [new Date(v)] was built
    from. *)
Definition DateTime : Type := jsval.

(** A [Date] object: its time value is NaN, or it is a date. *)
Inductive date_object : Type :=
| InvalidDate
| ValidDate (v : DateTime).

(** The largest time value, 8.64e15 ms. *)
Definition max_time : Q := 8640000000000000 # 1.

Class Runtime : Type := {
  (** Number::toString *)
  Number_toString : Q -> string;
  (** whether [Date.parse(s)] is a time value (not NaN) *)
  Date_parse : string -> bool;
  (** an integer below 10^21 in magnitude is printed as its decimal
      numeral *)
  Number_toString_integer :
    forall z : Z, Z.abs z < 10 ^ 21 ->
      Number_toString (inject_Z z) = NilZero.string_of_int (Z.to_int z);
  (** [bcrypt.hash(password, SALT_ROUNDS)] *)
  bcrypt_hash : string -> string;
  (** [bcrypt.compare(password, hash)] *)
  bcrypt_compare : string -> string -> bool;
  (** [jwt.sign(payload, JWT_SECRET, { expiresIn: '1d' })] *)
  jwt_sign : Token.payload -> string;
  (** [jwt.verify(token, JWT_SECRET, callback)] at the time of the request *)
  jwt_verify : string -> jwt_result;
  (** [process.env.FRONTEND_URL] *)
  FRONTEND_URL : string
}.

Section Values.
Context {R : Runtime}.

(** ToString; [None] is the TypeError of ToPrimitive.  An object of a
    JSON body has no function among its values: with an own key
    [toString] it has no primitive value (the inherited [valueOf] gives
    the object back), without one it is printed by
    [Object.prototype.toString].  An array is printed by [join], which
    prints its elements. *)
Fixpoint to_String (v : jsval) : option string :=
  match v with
  | JUndefined => Some "undefined"
  | JNull => Some "null"
  | JBool true => Some "true"
  | JBool false => Some "false"
  | JNum q => Some (Number_toString q)
  | JStr s => Some s
  | JArr l =>
      option_map (join ",")
        ((fix each (l : list jsval) : option (list string) :=
            match l with
            | [] => Some []
            | e :: l' =>
                match match e with
                      | JUndefined | JNull => Some ""
                      | _ => to_String e
                      end, each l' with
                | Some s, Some r => Some (s :: r)
                | _, _ => None
                end
            end) l)
  | JObj fields =>
      if has_key "toString" fields then None else Some "[object Object]"
  end.

(** [parseInt(v, 10)]: [None] is the TypeError of ToString, [Some None]
    is NaN. *)
Definition parseInt (v : jsval) : option (option Z) :=
  option_map parseInt_string (to_String v).

(** [new Date(v)]; [None] is the TypeError of ToPrimitive.  A string is
    parsed, a number is a time value, valid up to 8.64e15 in magnitude,
    [null] and the booleans are the time values 0 and 1, and an array
    or object is parsed from its primitive value, which is its
    string. *)
Definition new_Date (v : jsval) : option date_object :=
  match v with
  | JUndefined => Some InvalidDate
  | JNull | JBool _ => Some (ValidDate v)
  | JNum q =>
      Some (if Qle_bool (- max_time) q && Qle_bool q max_time
            then ValidDate v else InvalidDate)
  | JStr s => Some (if Date_parse s then ValidDate v else InvalidDate)
  | JArr _ | JObj _ =>
      match to_String v with
      | Some s => Some (if Date_parse s then ValidDate v else InvalidDate)
      | None => None
      end
  end.

(** [v ? new Date(v) : null] *)
Definition date_or_null (v : jsval) : option (option date_object) :=
  if truthy v then option_map Some (new_Date v) else Some None.

End Values.

(* ------------------------------------------------------------------ *)
(** ** The schema: [model User], [model Board], [model Task] *)

Module User.
Record t : Type := mk {
  id : string;
  email : string;
  passwordHash : string;
  googleId : option string
}.
End User.

Module Board.
Record t : Type := mk {
  id : string;
  name : string;
  userId : string
}.
End Board.

Module Task.
Record t : Type := mk {
  id : string;
  title : string;
  description : option string;
  status : string;
  startDate : option DateTime;
  estimatedFinishDate : option DateTime;
  reminderDateTime : option DateTime;
  progress : Z;
  boardId : string
}.
End Task.

(** The calls the handlers make on the Prisma client. *)
Inductive prisma_call : Type :=
| user_findUnique | user_create | user_update
| board_findMany | board_findUnique | board_create | board_update
| board_delete
| task_findMany | task_findUnique | task_create | task_update
| task_delete.

Record db : Type := mkDb {
  users : list User.t;
  boards : list Board.t;
  tasks : list Task.t;
  uuid_counter : N;
  calls : list prisma_call
}.

Definition empty_db : db := mkDb [] [] [] 0%N [].

(* ------------------------------------------------------------------ *)
(** ** The store monad *)

Definition M (A : Type) : Type := db -> A * db.

Definition ret {A : Type} (a : A) : M A := fun s => (a, s).

Definition bind {A B : Type} (m : M A) (k : A -> M B) : M B :=
  fun s => let (a, s') := m s in k a s'.

Notation "x <- m ;; k" := (bind m (fun x => k))
  (at level 61, m at next level, right associativity).
Notation "m ;;; k" := (bind m (fun _ => k))
  (at level 61, right associativity).

Definition get_db : M db := fun s => (s, s).

Definition called (c : prisma_call) : M unit :=
  fun s => (tt, mkDb (users s) (boards s) (tasks s) (uuid_counter s)
                     (calls s ++ [c])).

Definition put_users (l : list User.t) : M unit :=
  fun s => (tt, mkDb l (boards s) (tasks s) (uuid_counter s) (calls s)).

Definition put_boards (l : list Board.t) : M unit :=
  fun s => (tt, mkDb (users s) l (tasks s) (uuid_counter s) (calls s)).

Definition put_tasks (l : list Task.t) : M unit :=
  fun s => (tt, mkDb (users s) (boards s) l (uuid_counter s) (calls s)).

(** [@default(uuid())]: identifiers are drawn from a counter, so that
    each one is new. *)
Definition uuid_of (n : N) : string :=
  "id-" ++ NilEmpty.string_of_uint (N.to_uint n).

Definition uuid : M string :=
  fun s => (uuid_of (uuid_counter s),
            mkDb (users s) (boards s) (tasks s) (N.succ (uuid_counter s))
                 (calls s)).

(* ------------------------------------------------------------------ *)
(** ** Prisma client operations *)

(** An update [where] a unique column has a value changes the one row
    that has it. *)
Fixpoint update_first {A : Type} (p : A -> bool) (f : A -> A) (l : list A)
  : list A :=
  match l with
  | [] => []
  | x :: l' => if p x then f x :: l' else x :: update_first p f l'
  end.

Definition has_googleId (g : string) (u : User.t) : bool :=
  match User.googleId u with
  | Some g' => (g' =? g)%string
  | None => false
  end.

(** [prisma.user.findUnique({ where: { googleId } })] *)
Definition prisma_user_findUnique_googleId (g : string) : M (option User.t) :=
  called user_findUnique ;;;
  s <- get_db ;;
  ret (find (has_googleId g) (users s)).

(** [prisma.user.findUnique({ where: { email } })] *)
Definition prisma_user_findUnique_email (e : string) : M (option User.t) :=
  called user_findUnique ;;;
  s <- get_db ;;
  ret (find (fun u => (User.email u =? e)%string) (users s)).

(** [prisma.user.update({ where: { email }, data: { googleId } })] *)
Definition prisma_user_update_googleId (e g : string) : M (option User.t) :=
  called user_update ;;;
  s <- get_db ;;
  put_users (update_first (fun u => (User.email u =? e)%string)
                          (fun u => User.mk (User.id u) (User.email u)
                                            (User.passwordHash u) (Some g))
                          (users s)) ;;;
  s' <- get_db ;;
  ret (find (fun u => (User.email u =? e)%string) (users s')).

(** [prisma.user.create({ data: { email, passwordHash, googleId? } })] *)
Definition prisma_user_create (e h : string) (g : option string) : M User.t :=
  called user_create ;;;
  i <- uuid ;;
  s <- get_db ;;
  let u := User.mk i e h g in
  put_users (users s ++ [u]) ;;;
  ret u.

(** [prisma.board.findMany({ where: { userId }, orderBy: ... })] *)
Definition prisma_board_findMany (uid : string) : M (list Board.t) :=
  called board_findMany ;;;
  s <- get_db ;;
  ret (filter (fun b => (Board.userId b =? uid)%string) (boards s)).

(** [prisma.board.create({ data: { name, userId } })] *)
Definition prisma_board_create (n uid : string) : M Board.t :=
  called board_create ;;;
  i <- uuid ;;
  s <- get_db ;;
  let b := Board.mk i n uid in
  put_boards (boards s ++ [b]) ;;;
  ret b.

(** [prisma.board.findUnique({ where: { id } })] *)
Definition prisma_board_findUnique (i : string) : M (option Board.t) :=
  called board_findUnique ;;;
  s <- get_db ;;
  ret (find (fun b => (Board.id b =? i)%string) (boards s)).

(** [prisma.board.update({ where: { id }, data: { name } })] *)
Definition prisma_board_update (i n : string) : M unit :=
  called board_update ;;;
  s <- get_db ;;
  put_boards (update_first (fun b => (Board.id b =? i)%string)
                           (fun b => Board.mk (Board.id b) n (Board.userId b))
                           (boards s)).

(** [prisma.board.delete({ where: { id } })].  The schema runs with
    [relationMode = "prisma"] and [Task.board] is declared
    [onDelete: Cascade]: the client deletes the tasks of the board
    together with the board. *)
Definition prisma_board_delete (i : string) : M unit :=
  called board_delete ;;;
  s <- get_db ;;
  put_tasks (filter (fun t => negb (Task.boardId t =? i)%string) (tasks s)) ;;;
  put_boards (filter (fun b => negb (Board.id b =? i)%string) (boards s)).

(** [prisma.task.findMany({ where: { boardId }, orderBy: ... })] *)
Definition prisma_task_findMany (bid : string) : M (list Task.t) :=
  called task_findMany ;;;
  s <- get_db ;;
  ret (filter (fun t => (Task.boardId t =? bid)%string) (tasks s)).

(** What the client makes of a [DateTime?] argument: [null] and a date
    are stored, an invalid [Date] object is refused. *)
Definition accepted_date (d : option date_object) : bool :=
  match d with
  | Some InvalidDate => false
  | _ => true
  end.

Definition date_column (d : option date_object) : option DateTime :=
  match d with
  | Some (ValidDate v) => Some v
  | _ => None
  end.

(** [prisma.task.create({ data })], from the columns besides the
    identifier: the created row, or [None] where the client raises
    because a [Date] object is invalid. *)
Definition prisma_task_create
    (ttl : string) (desc : option string) (st : string) (pr : Z)
    (sd efd rdt : option date_object) (bid : string) : M (option Task.t) :=
  called task_create ;;;
  if negb (accepted_date sd && accepted_date efd && accepted_date rdt)
  then ret None
  else
    i <- uuid ;;
    s <- get_db ;;
    let t := Task.mk i ttl desc st (date_column sd) (date_column efd)
                     (date_column rdt) pr bid in
    put_tasks (tasks s ++ [t]) ;;;
    ret (Some t).

(** [prisma.task.findUnique({ where: { id }, include/select:
    { board: { select: { userId: true } } } })]: the row together with
    [board.userId], [None] where the relation resolves to no board. *)
Definition prisma_task_findUnique (i : string)
  : M (option (Task.t * option string)) :=
  called task_findUnique ;;;
  s <- get_db ;;
  ret (match find (fun t => (Task.id t =? i)%string) (tasks s) with
       | Some t =>
           Some (t, option_map Board.userId
                      (find (fun b => (Board.id b =? Task.boardId t)%string)
                            (boards s)))
       | None => None
       end).

(** [prisma.task.delete({ where: { id } })] *)
Definition prisma_task_delete (i : string) : M unit :=
  called task_delete ;;;
  s <- get_db ;;
  put_tasks (filter (fun t => negb (Task.id t =? i)%string) (tasks s)).

(** The [data] object of [prisma.task.update]: a key that is absent is
    [None]; a date key holds [null] or a [Date] object. *)
Module UpdateData.
Record t : Type := mk {
  title : option string;
  description : option (option string);
  startDate : option (option date_object);
  estimatedFinishDate : option (option date_object);
  reminderDateTime : option (option date_object);
  status : option string;
  progress : option Z
}.

(** The client takes the object: no date key holds an invalid [Date]. *)
Definition accepted (d : t) : bool :=
  match startDate d with Some k => accepted_date k | None => true end
  && match estimatedFinishDate d with
     | Some k => accepted_date k
     | None => true
     end
  && match reminderDateTime d with
     | Some k => accepted_date k
     | None => true
     end.

Definition is_some {A : Type} (o : option A) : bool :=
  match o with Some _ => true | None => false end.

(** [Object.keys(updateData).length === 0] *)
Definition no_keys (d : t) : bool :=
  negb (is_some (title d) || is_some (description d)
        || is_some (startDate d) || is_some (estimatedFinishDate d)
        || is_some (reminderDateTime d) || is_some (status d)
        || is_some (progress d)).

(** [delete updateData.progress] *)
Definition delete_progress (d : t) : t :=
  mk (title d) (description d) (startDate d) (estimatedFinishDate d)
     (reminderDateTime d) (status d) None.

Definition or_keep {A : Type} (o : option A) (old : A) : A :=
  match o with Some a => a | None => old end.

(** The row after the update: the keys present replace the columns. *)
Definition apply (d : t) (r : Task.t) : Task.t :=
  Task.mk (Task.id r)
          (or_keep (title d) (Task.title r))
          (or_keep (description d) (Task.description r))
          (or_keep (status d) (Task.status r))
          (or_keep (option_map date_column (startDate d))
                   (Task.startDate r))
          (or_keep (option_map date_column (estimatedFinishDate d))
                   (Task.estimatedFinishDate r))
          (or_keep (option_map date_column (reminderDateTime d))
                   (Task.reminderDateTime r))
          (or_keep (progress d) (Task.progress r))
          (Task.boardId r).
End UpdateData.

(** [prisma.task.update({ where: { id }, data })]: the updated row, or
    [None] where the client raises, because a [Date] object of [data] is
    invalid or because no row has the id. *)
Definition prisma_task_update (i : string) (d : UpdateData.t)
  : M (option Task.t) :=
  called task_update ;;;
  if negb (UpdateData.accepted d) then ret None
  else
    s <- get_db ;;
    put_tasks (update_first (fun t => (Task.id t =? i)%string)
                            (UpdateData.apply d) (tasks s)) ;;;
    ret (option_map (UpdateData.apply d)
           (find (fun t => (Task.id t =? i)%string) (tasks s))).

(* ------------------------------------------------------------------ *)
(** ** Requests and responses *)

(** [req.body] as the handlers destructure it.  [title], [name],
    [email] and [password] are strings where present and [description]
    is a string or [null], as the schema types the columns they are
    written to; the fields a handler inspects before use are arbitrary
    values. *)
Module Body.
Record t : Type := mk {
  email : option string;
  password : option string;
  name : option string;
  title : option string;
  description : option (option string);
  status : jsval;
  startDate : jsval;
  estimatedFinishDate : jsval;
  reminderDateTime : jsval;
  progress : jsval
}.

(** [{}] *)
Definition empty : t :=
  mk None None None None None
     JUndefined JUndefined JUndefined JUndefined JUndefined.
End Body.

(** The profile the identity provider hands to the strategy's verify
    callback: [profile.id] and [profile.emails?.[0]?.value]. *)
Record GoogleProfile : Type := {
  profile_id : string;
  profile_email : option string
}.

Inductive route : Type :=
| GET_test
| POST_auth_signup
| POST_auth_login
| GET_auth_google_callback (profile : GoogleProfile)
| GET_boards
| POST_boards
| PUT_board (boardId : string)
| DELETE_board (boardId : string)
| GET_board_tasks (boardId : string)
| POST_board_tasks (boardId : string)
| PUT_task (taskId : string)
| DELETE_task (taskId : string).

Record request : Type := mkReq {
  req_route : route;
  (** [req.headers['authorization']] *)
  authorization : option string;
  req_body : Body.t
}.

Inductive res_body : Type :=
| NoBody
| Message (m : string)
| UserCreated (m : string) (id email : string)
| LoginToken (m : string) (token : string)
| BoardJson (b : Board.t)
| BoardList (l : list Board.t)
| TaskJson (t : Task.t)
| TaskList (l : list Task.t)
| RedirectTo (url : string)
| Uncaught.

Record response : Type := mkRes {
  res_status : Z;
  res_json : res_body
}.

(** [res.sendStatus(c)] and [res.status(c).send()] *)
Definition sendStatus (c : Z) : response := mkRes c NoBody.
(** [res.status(c).json({ message })] *)
Definition message (c : Z) (m : string) : response := mkRes c (Message m).

(** The outcome of a handler that an exception escapes: the handler
    has sent nothing. *)
Definition uncaught : response := mkRes 0 Uncaught.

Definition str_of (o : option string) : string :=
  match o with Some s => s | None => "" end.

Definition validStatuses : list string := ["todo"; "inprogress"; "done"].

(* ------------------------------------------------------------------ *)
(** ** The handlers of [server.js] *)

Section Handlers.
Context {R : Runtime}.

(** The verify callback of the Google strategy; [None] is
    [done(error, null)]. *)
Definition google_verify (profile : GoogleProfile) : M (option User.t) :=
  user <- prisma_user_findUnique_googleId (profile_id profile) ;;
  match user with
  | Some u => ret (Some u)
  | None =>
      let email := profile_email profile in
      if negb (truthy_str email) then ret None
      else
        user <- prisma_user_findUnique_email (str_of email) ;;
        match user with
        | Some _ =>
            prisma_user_update_googleId (str_of email) (profile_id profile)
        | None =>
            u <- prisma_user_create (str_of email) ""
                   (Some (profile_id profile)) ;;
            ret (Some u)
        end
  end.

(** [authHeader && authHeader.split(' ')[1]] *)
Definition bearer_token (authHeader : option string) : option string :=
  match authHeader with
  | None => None
  | Some h => if (h =? "")%string then Some ""
              else nth_error (split_space "" h) 1
  end.

Definition authenticateToken (req : request)
    (next : Token.payload -> M response) : M response :=
  let authHeader := authorization req in
  let token := bearer_token authHeader in
  match token with
  | None => ret (sendStatus 401)
  | Some token =>
      match jwt_verify token with
      | JwtErr _ => ret (sendStatus 403)
      | JwtOk userPayload => next userPayload
      end
  end.

(** [POST /api/auth/signup] *)
Definition auth_signup (req : request) : M response :=
  let email := Body.email (req_body req) in
  let password := Body.password (req_body req) in
  if negb (truthy_str email) || negb (truthy_str password)
  then ret (message 400 "Email and password are required.")
  else if str_length (str_of password) <? 8
  then ret (message 400 "Password must be at least 8 characters long.")
  else if negb (test_upper (str_of password))
  then ret (message 400
              "Password must contain at least one uppercase letter.")
  else if negb (test_lower (str_of password))
  then ret (message 400
              "Password must contain at least one lowercase letter.")
  else if negb (test_digit (str_of password))
  then ret (message 400 "Password must contain at least one number.")
  else
    existingUser <- prisma_user_findUnique_email (str_of email) ;;
    match existingUser with
    | Some _ => ret (message 400 "Email already in use.")
    | None =>
        let passwordHash := bcrypt_hash (str_of password) in
        user <- prisma_user_create (str_of email) passwordHash None ;;
        ret (mkRes 201 (UserCreated "User created successfully"
                          (User.id user) (User.email user)))
    end.

(** [POST /api/auth/login] *)
Definition auth_login (req : request) : M response :=
  let email := Body.email (req_body req) in
  let password := Body.password (req_body req) in
  if negb (truthy_str email) || negb (truthy_str password)
  then ret (message 400 "Email and password are required.")
  else
    user <- prisma_user_findUnique_email (str_of email) ;;
    match user with
    | None =>
        ret (message 401 "Invalid credentials. Please use Google Sign-In if you registered with Google.")
    | Some user =>
        if (User.passwordHash user =? "")%string
        then ret (message 401 "Invalid credentials. Please use Google Sign-In if you registered with Google.")
        else
          let isPasswordValid :=
            bcrypt_compare (str_of password) (User.passwordHash user) in
          if negb isPasswordValid
          then ret (message 401 "Invalid credentials.")
          else
            let tokenPayload :=
              Token.mk (User.id user) (User.email user) in
            let token := jwt_sign tokenPayload in
            ret (mkRes 200 (LoginToken "Login successful" token))
    end.

(** [GET /api/auth/google/callback], from the profile on: the verify
    callback, then the route's own function.  A verify error goes to
    the framework's error handler. *)
Definition auth_google_callback (profile : GoogleProfile) : M response :=
  user <- google_verify profile ;;
  match user with
  | None => ret (sendStatus 500)
  | Some user =>
      let tokenPayload := Token.mk (User.id user) (User.email user) in
      let token := jwt_sign tokenPayload in
      ret (mkRes 302
             (RedirectTo (FRONTEND_URL ++ "/auth/callback?token=" ++ token)))
  end.

(** [GET /api/boards] *)
Definition get_boards (req : request) (user : Token.payload) : M response :=
  let userId := Token.userId user in
  if (userId =? "")%string then ret (sendStatus 401)
  else
    boards <- prisma_board_findMany userId ;;
    ret (mkRes 200 (BoardList boards)).

(** [POST /api/boards] *)
Definition post_boards (req : request) (user : Token.payload) : M response :=
  let name := Body.name (req_body req) in
  let userId := Token.userId user in
  if (userId =? "")%string then ret (sendStatus 401)
  else if negb (truthy_str name)
  then ret (message 400 "Board name is required.")
  else
    newBoard <- prisma_board_create (str_of name) userId ;;
    ret (mkRes 201 (BoardJson newBoard)).

(** [PUT /api/boards/:boardId] *)
Definition put_board (boardId : string) (req : request)
    (user : Token.payload) : M response :=
  let name := Body.name (req_body req) in
  let userId := Token.userId user in
  if (userId =? "")%string then ret (sendStatus 401)
  else if negb (truthy_str name)
  then ret (message 400 "New board name is required.")
  else
    board <- prisma_board_findUnique boardId ;;
    match board with
    | None => ret (message 404 "Board not found or user not authorized.")
    | Some board =>
        if negb (Board.userId board =? userId)%string
        then ret (message 404 "Board not found or user not authorized.")
        else
          prisma_board_update boardId (str_of name) ;;;
          ret (message 200 "Board updated successfully.")
    end.

(** [DELETE /api/boards/:boardId] *)
Definition delete_board (boardId : string) (req : request)
    (user : Token.payload) : M response :=
  let userId := Token.userId user in
  if (userId =? "")%string then ret (sendStatus 401)
  else
    board <- prisma_board_findUnique boardId ;;
    match board with
    | None => ret (message 404 "Board not found or user not authorized.")
    | Some board =>
        if negb (Board.userId board =? userId)%string
        then ret (message 404 "Board not found or user not authorized.")
        else
          prisma_board_delete boardId ;;;
          ret (sendStatus 204)
    end.

(** [GET /api/boards/:boardId/tasks] *)
Definition get_board_tasks (boardId : string) (req : request)
    (user : Token.payload) : M response :=
  let userId := Token.userId user in
  if (userId =? "")%string then ret (sendStatus 401)
  else
    board <- prisma_board_findUnique boardId ;;
    match board with
    | None => ret (message 404 "Board not found.")
    | Some board =>
        if negb (Board.userId board =? userId)%string
        then ret (message 403 "User not authorized for this board.")
        else
          tasks <- prisma_task_findMany boardId ;;
          ret (mkRes 200 (TaskList tasks))
    end.

(** A value found by [validStatuses.includes] is a string. *)
Definition as_string (v : jsval) : string :=
  match v with JStr s => s | _ => "" end.

(** A column left [undefined] or given [null] is stored as [null]. *)
Definition flatten {A : Type} (o : option (option A)) : option A :=
  match o with Some a => a | None => None end.

(** [(!isNaN(n) && n >= 0 && n <= 100) ? n : d], for [n] a number or
    NaN *)
Definition valid_or (numProgress : option Z) (d : Z) : Z :=
  match numProgress with
  | Some n => if (n >=? 0) && (n <=? 100) then n else d
  | None => d
  end.

(** [taskProgress] of a creation (lines 279-280); [None] is the
    TypeError of [parseInt], which is called under status "inprogress"
    only. *)
Definition create_progress (taskStatus progress : jsval) : option Z :=
  let taskProgress := nullish_or progress (JNum 0%Q) in
  if strict_eq_str taskStatus "done" then Some 100
  else if strict_eq_str taskStatus "todo" then Some 0
  else match parseInt taskProgress with
       | Some numProgress => Some (valid_or numProgress 0)
       | None => None
       end.

(** [POST /api/boards/:boardId/tasks] *)
Definition post_board_tasks (boardId : string) (req : request)
    (user : Token.payload) : M response :=
  let userId := Token.userId user in
  if (userId =? "")%string then ret (sendStatus 401)
  else
    let b := req_body req in
    let title := Body.title b in
    if negb (truthy_str title)
    then ret (message 400 "Task title is required.")
    else
      let taskStatus := or_else (Body.status b) (JStr "todo") in
      if negb (includes validStatuses taskStatus)
      then ret (message 400 "Invalid status value.")
      else
        match create_progress taskStatus (Body.progress b) with
        | None => ret uncaught
        | Some taskProgress =>
            board <- prisma_board_findUnique boardId ;;
            match board with
            | None => ret (message 404 "Board not found.")
            | Some board =>
                if negb (Board.userId board =? userId)%string
                then ret (message 403 "User not authorized for this board.")
                else
                  match date_or_null (Body.startDate b),
                        date_or_null (Body.estimatedFinishDate b),
                        date_or_null (Body.reminderDateTime b)
                  with
                  | Some startDate, Some estimatedFinishDate,
                    Some reminderDateTime =>
                      newTask <- prisma_task_create
                                   (str_of title)
                                   (flatten (Body.description b))
                                   (as_string taskStatus)
                                   taskProgress
                                   startDate estimatedFinishDate
                                   reminderDateTime boardId ;;
                      match newTask with
                      | Some newTask => ret (mkRes 201 (TaskJson newTask))
                      | None => ret (message 500 "Error creating task.")
                      end
                  | _, _, _ =>
                      (* new Date raises inside the try *)
                      ret (message 500 "Error creating task.")
                  end
            end
        end.

(** [if (v !== undefined) updateData.k = v ? new Date(v) : null];
    [None] is the TypeError of [new Date]. *)
Definition date_key (v : jsval) : option (option (option date_object)) :=
  if is_undefined v then Some None else option_map Some (date_or_null v).

(** The [status] and [progress] keys of [updateData] (lines 302-315);
    [Some (inl m)] is the early
    [return res.status(400).json({ message: m })] and [None] is the
    TypeError of [parseInt]. *)
Definition status_progress_keys (status progress : jsval)
  : option (string + (option string * option Z)) :=
  if negb (is_undefined status) then
    if negb (includes validStatuses status)
    then Some (inl "Invalid status value.")
    else if strict_eq_str status "todo"
    then Some (inr (Some (as_string status), Some 0))
    else if strict_eq_str status "done"
    then Some (inr (Some (as_string status), Some 100))
    else if strict_eq_str status "inprogress" then
      if is_undefined progress
      then Some (inr (Some (as_string status), Some 25))
      else match parseInt progress with
           | Some numProgress =>
               Some (inr (Some (as_string status),
                          Some (valid_or numProgress 25)))
           | None => None
           end
    else Some (inr (Some (as_string status), None))
  else if negb (is_undefined progress) then
    match parseInt progress with
    | None => None
    | Some None => Some (inl "Invalid progress value.")
    | Some (Some n) =>
        if (n <? 0) || (n >? 100) then Some (inl "Invalid progress value.")
        else Some (inr (None, Some n))
    end
  else Some (inr (None, None)).

(** What lines 296-315 leave: a TypeError, an early 400, or
    [updateData]. *)
Inductive prepared : Type :=
| Raised
| Rejected (m : string)
| Prepared (updateData : UpdateData.t).

Definition prepare_update (b : Body.t) : prepared :=
  match date_key (Body.startDate b),
        date_key (Body.estimatedFinishDate b),
        date_key (Body.reminderDateTime b)
  with
  | Some startDate, Some estimatedFinishDate, Some reminderDateTime =>
      match status_progress_keys (Body.status b) (Body.progress b) with
      | None => Raised
      | Some (inl m) => Rejected m
      | Some (inr (status, progress)) =>
          Prepared (UpdateData.mk (Body.title b) (Body.description b)
                      startDate estimatedFinishDate reminderDateTime
                      status progress)
      end
  | _, _, _ => Raised
  end.

(** [PUT /api/tasks/:taskId] *)
Definition put_task (taskId : string) (req : request)
    (user : Token.payload) : M response :=
  let userId := Token.userId user in
  if (userId =? "")%string then ret (sendStatus 401)
  else
    match prepare_update (req_body req) with
    | Raised => ret uncaught
    | Rejected m => ret (message 400 m)
    | Prepared updateData =>
        if UpdateData.no_keys updateData
        then ret (message 400 "No valid update data provided.")
        else
          task <- prisma_task_findUnique taskId ;;
          match task with
          | None => ret (message 404 "Task not found.")
          | Some (task, None) =>
              (* task.board is null: the dereference raises *)
              ret (message 500 "Error updating task.")
          | Some (task, Some owner) =>
              if negb (owner =? userId)%string
              then ret (message 403 "User not authorized.")
              else
                let dropped :=
                  UpdateData.is_some (UpdateData.progress updateData)
                  && negb (UpdateData.is_some (UpdateData.status updateData))
                  && negb (Task.status task =? "inprogress")%string in
                let updateData :=
                  if dropped then UpdateData.delete_progress updateData
                  else updateData in
                if dropped && UpdateData.no_keys updateData
                then ret (message 400 "Progress cannot be updated...")
                else
                  updatedTask <- prisma_task_update taskId updateData ;;
                  match updatedTask with
                  | Some updatedTask =>
                      ret (mkRes 200 (TaskJson updatedTask))
                  | None => ret (message 500 "Error updating task.")
                  end
          end
    end.

(** [DELETE /api/tasks/:taskId] *)
Definition delete_task (taskId : string) (req : request)
    (user : Token.payload) : M response :=
  let userId := Token.userId user in
  if (userId =? "")%string then ret (sendStatus 401)
  else
    task <- prisma_task_findUnique taskId ;;
    match task with
    | None => ret (message 404 "Task not found.")
    | Some (_, None) => ret (message 500 "Error deleting task.")
    | Some (_, Some owner) =>
        if negb (owner =? userId)%string
        then ret (message 403 "User not authorized.")
        else
          prisma_task_delete taskId ;;;
          ret (sendStatus 204)
    end.

(** The routes behind [authenticateToken]. *)
Definition protected (r : route) : bool :=
  match r with
  | GET_test | POST_auth_signup | POST_auth_login
  | GET_auth_google_callback _ => false
  | _ => true
  end.

(** The router: [app.get], [app.post], [app.put], [app.delete]. *)
Definition handle (req : request) : M response :=
  match req_route req with
  | GET_test => ret (message 200 "Backend API is running!")
  | POST_auth_signup => auth_signup req
  | POST_auth_login => auth_login req
  | GET_auth_google_callback profile => auth_google_callback profile
  | GET_boards => authenticateToken req (get_boards req)
  | POST_boards => authenticateToken req (post_boards req)
  | PUT_board boardId => authenticateToken req (put_board boardId req)
  | DELETE_board boardId => authenticateToken req (delete_board boardId req)
  | GET_board_tasks boardId =>
      authenticateToken req (get_board_tasks boardId req)
  | POST_board_tasks boardId =>
      authenticateToken req (post_board_tasks boardId req)
  | PUT_task taskId => authenticateToken req (put_task taskId req)
  | DELETE_task taskId => authenticateToken req (delete_task taskId req)
  end.

(** The states the server reaches from the empty database, one request
    after the other. *)
Inductive reachable : db -> Prop :=
| reach_empty : reachable empty_db
| reach_step (s : db) (req : request) :
    reachable s -> reachable (snd (handle req s)).

End Handlers.

(* ------------------------------------------------------------------ *)
(** ** A runtime to run the handlers on *)

Module Demo.

(** Numbers are printed as the numeral of their integer part, which
    is what [parseInt] reads from the engine's rendering of a number
    in plain decimal notation. *)
Definition number_toString (q : Q) : string :=
  NilZero.string_of_int (Z.to_int (Z.quot (Qnum q) (Zpos (Qden q)))).

(** The strings taken for dates are those of the form YYYY-MM-DD. *)
Definition date_parse (s : string) : bool :=
  match s with
  | String y1 (String y2 (String y3 (String y4 (String "-"
      (String m1 (String m2 (String "-" (String d1 (String d2 ""))))))))) =>
      forallb (in_range 48 57) [y1; y2; y3; y4; m1; m2; d1; d2]
  | _ => false
  end.

Definition hash (password : string) : string := "$2b$10$" ++ password.

Definition compare (password h : string) : bool :=
  (h =? hash password)%string.

(** A token is ["jwt:"] followed by the user id; a token that starts
    with ["old:"] is one whose time has run out. *)
Definition sign (p : Token.payload) : string := "jwt:" ++ Token.userId p.

Definition verify (token : string) : jwt_result :=
  if String.prefix "jwt:" token
  then JwtOk (Token.mk (substring 4 (String.length token - 4) token) "")
  else if String.prefix "old:" token then JwtErr TokenExpiredError
  else JwtErr JsonWebTokenError.

Lemma number_toString_integer (z : Z) :
  Z.abs z < 10 ^ 21 ->
  number_toString (inject_Z z) = NilZero.string_of_int (Z.to_int z).
Proof.
  intros _. unfold number_toString, inject_Z. cbn [Qnum Qden].
  now rewrite Z.quot_1_r.
Qed.

#[export] Instance runtime : Runtime := {
  Number_toString := number_toString;
  Date_parse := date_parse;
  Number_toString_integer := number_toString_integer;
  bcrypt_hash := hash;
  bcrypt_compare := compare;
  jwt_sign := sign;
  jwt_verify := verify;
  FRONTEND_URL := "https://app.example"
}.

(** [Authorization: Bearer jwt:<id>] *)
Definition bearer (uid : string) : option string :=
  Some ("Bearer jwt:" ++ uid).

Definition body_task (title : option string) (status progress : jsval)
  : Body.t :=
  Body.mk None None None title None status JUndefined JUndefined JUndefined
          progress.

Definition body_name (name : option string) : Body.t :=
  Body.mk None None name None None
          JUndefined JUndefined JUndefined JUndefined JUndefined.

Definition body_login (email password : string) : Body.t :=
  Body.mk (Some email) (Some password) None None None
          JUndefined JUndefined JUndefined JUndefined JUndefined.

(** Run requests one after the other. *)
Fixpoint run (reqs : list request) (s : db) : list response * db :=
  match reqs with
  | [] => ([], s)
  | r :: reqs' =>
      let (res, s') := handle r s in
      let (out, s'') := run reqs' s' in
      (res :: out, s'')
  end.

(** Alice ("id-0") owns board "id-1" with the task "id-2" ("Buy
    milk", todo); Bob is "id-3". *)
Definition alice_and_bob : db :=
  snd (run [ mkReq POST_auth_signup None (body_login "alice@x.org" "Passw0rdA");
             mkReq POST_boards (bearer "id-0") (body_name (Some "Home"));
             mkReq (POST_board_tasks "id-1") (bearer "id-0")
                   (body_task (Some "Buy milk") JUndefined JUndefined);
             mkReq POST_auth_signup None (body_login "bob@x.org" "Passw0rdB") ]
           empty_db).

(** What a response shows of a task: its status and progress. *)
Definition shown (r : response) : option (string * Z) :=
  match res_json r with
  | TaskJson t => Some (Task.status t, Task.progress t)
  | _ => None
  end.

(** The payloads of Alice's and Bob's tokens. *)
Definition alice : Token.payload := Token.mk "id-0" "".
Definition bob : Token.payload := Token.mk "id-3" "".

(** Alice moves her task to "inprogress". *)
Definition alice_starts : request :=
  mkReq (PUT_task "id-2") (bearer "id-0")
        (body_task None (JStr "inprogress") JUndefined).

(** Alice sends a title and a progress for her "todo" task. *)
Definition alice_retitles : request :=
  mkReq (PUT_task "id-2") (bearer "id-0")
        (body_task (Some "Buy oat milk") JUndefined (JNum (60 # 1))).

(** Alice sends only a progress for her "todo" task. *)
Definition alice_progress_only : request :=
  mkReq (PUT_task "id-2") (bearer "id-0")
        (body_task None JUndefined (JNum (60 # 1))).

(** Carol signs in with Google on an empty database. *)
Definition carol_oauth : db :=
  snd (handle (mkReq (GET_auth_google_callback
                        {| profile_id := "g-1";
                           profile_email := Some "carol@x.org" |})
                     None Body.empty)
              empty_db).

(** Bob sends an empty update for Alice's task. *)
Definition bob_empty_update : request :=
  mkReq (PUT_task "id-2") (bearer "id-3") Body.empty.

(** Bob renames Alice's board without giving a name. *)
Definition bob_renames_nothing : request :=
  mkReq (PUT_board "id-1") (bearer "id-3") (body_name None).

(** Bob renames Alice's board. *)
Definition bob_renames : request :=
  mkReq (PUT_board "id-1") (bearer "id-3") (body_name (Some "Mine")).

(** Alice's task once she has moved it to "inprogress". *)
Definition alice_in_progress : db := snd (handle alice_starts alice_and_bob).

Definition alice_creates : request :=
  mkReq (POST_board_tasks "id-1") (bearer "id-0")
        (body_task (Some "Walk") JUndefined (JNum (50 # 1))).

Definition alice_creates_at_60 : request :=
  mkReq (POST_board_tasks "id-1") (bearer "id-0")
        (body_task (Some "Walk") (JStr "inprogress") (JNum (inject_Z 60))).

Definition alice_updates_to_60 : request :=
  mkReq (PUT_task "id-2") (bearer "id-0")
        (body_task None (JStr "inprogress") (JNum (inject_Z 60))).

Definition alice_lists_tasks : request :=
  mkReq (GET_board_tasks "id-1") (bearer "id-0") Body.empty.

Definition alice_deletes_task : request :=
  mkReq (DELETE_task "id-2") (bearer "id-0") Body.empty.

Definition alice_deletes_board : request :=
  mkReq (DELETE_board "id-1") (bearer "id-0") Body.empty.

Definition alice_renames : request :=
  mkReq (PUT_board "id-1") (bearer "id-0") (body_name (Some "House")).

Definition alice_lists_boards : request :=
  mkReq GET_boards (bearer "id-0") Body.empty.

Definition alice_adds_board : request :=
  mkReq POST_boards (bearer "id-0") (body_name (Some "Work")).

Definition alice_signs_up : request :=
  mkReq POST_auth_signup None (body_login "alice@x.org" "Passw0rdA").

Definition alice_logs_in : request :=
  mkReq POST_auth_login None (body_login "alice@x.org" "Passw0rdA").

(** Google callbacks: for Carol and for Alice's email. *)
Definition carol_google : request :=
  mkReq (GET_auth_google_callback
           {| profile_id := "g-1"; profile_email := Some "carol@x.org" |})
        None Body.empty.

Definition alice_google : request :=
  mkReq (GET_auth_google_callback
           {| profile_id := "g-2"; profile_email := Some "alice@x.org" |})
        None Body.empty.

(** A task body with a start date. *)
Definition body_task_from (title : option string)
    (status progress startDate : jsval) : Body.t :=
  Body.mk None None None title None status startDate JUndefined JUndefined
          progress.

(** Alice moves her task to "inprogress" with a start date that is no
    date. *)
Definition alice_starts_garbage : request :=
  mkReq (PUT_task "id-2") (bearer "id-0")
        (body_task_from None (JStr "inprogress") JUndefined (JStr "garbage")).

(** The same with a date. *)
Definition alice_starts_on_date : request :=
  mkReq (PUT_task "id-2") (bearer "id-0")
        (body_task_from None (JStr "inprogress") JUndefined
                        (JStr "2026-01-15")).

(** Alice moves her task to "inprogress" with a progress that is no
    number, and creates such a task; then both with a start date that
    is no date. *)
Definition alice_starts_abc : request :=
  mkReq (PUT_task "id-2") (bearer "id-0")
        (body_task None (JStr "inprogress") (JStr "abc")).

Definition alice_creates_abc : request :=
  mkReq (POST_board_tasks "id-1") (bearer "id-0")
        (body_task (Some "Walk") (JStr "inprogress") (JStr "abc")).

Definition alice_starts_abc_garbage : request :=
  mkReq (PUT_task "id-2") (bearer "id-0")
        (body_task_from None (JStr "inprogress") (JStr "abc")
                        (JStr "garbage")).

Definition alice_creates_abc_garbage : request :=
  mkReq (POST_board_tasks "id-1") (bearer "id-0")
        (body_task_from (Some "Walk") (JStr "inprogress") (JStr "abc")
                        (JStr "garbage")).

(** A progress that is an object with a key [toString]. *)
Definition progress_object : jsval := JObj [("toString", JNum (1 # 1))].

Definition alice_starts_object : request :=
  mkReq (PUT_task "id-2") (bearer "id-0")
        (body_task None (JStr "inprogress") progress_object).

Definition alice_creates_object : request :=
  mkReq (POST_board_tasks "id-1") (bearer "id-0")
        (body_task (Some "Walk") (JStr "inprogress") progress_object).

(** Bob deletes Alice's task, lists the tasks of a board that does not
    exist, and updates Alice's task with such a progress. *)
Definition bob_deletes_task : request :=
  mkReq (DELETE_task "id-2") (bearer "id-3") Body.empty.

Definition bob_lists_nothing : request :=
  mkReq (GET_board_tasks "id-9") (bearer "id-3") Body.empty.

Definition bob_updates_object : request :=
  mkReq (PUT_task "id-2") (bearer "id-3")
        (body_task None JUndefined progress_object).

End Demo.


(* ------------------------------------------------------------------ *)
(** ** Vocabulary of the properties *)

(** The password policy in words: at least 8 characters, an uppercase
    letter, a lowercase letter and a digit. *)
Definition password_policy (password : option string) : bool :=
  match password with
  | Some p =>
      (8 <=? str_length p) && test_upper p && test_lower p && test_digit p
  | None => false
  end.

(** The write policy on a task row. *)
Definition task_ok (t : Task.t) : Prop :=
  0 <= Task.progress t <= 100
  /\ (Task.status t = "todo" -> Task.progress t = 0)
  /\ (Task.status t = "done" -> Task.progress t = 100).

Definition success (r : response) : bool :=
  (200 <=? res_status r) && (res_status r <? 300).

(** What a route's path parameter names in the store. *)
Inductive resource : Type :=
| NotFound
| OwnedBy (owner : string)
| Orphan.   (* a task row whose board is gone *)

Definition board_resource (s : db) (i : string) : resource :=
  match find (fun b => (Board.id b =? i)%string) (boards s) with
  | Some b => OwnedBy (Board.userId b)
  | None => NotFound
  end.

Definition task_resource (s : db) (i : string) : resource :=
  match find (fun t => (Task.id t =? i)%string) (tasks s) with
  | Some t =>
      match board_resource s (Task.boardId t) with
      | OwnedBy o => OwnedBy o
      | _ => Orphan
      end
  | None => NotFound
  end.

Definition stored_task (s : db) (i : string) : option Task.t :=
  find (fun t => (Task.id t =? i)%string) (tasks s).

(** The board or task a route names in its path. *)
Definition path_resource (r : route) (s : db) : option resource :=
  match r with
  | PUT_board i | DELETE_board i | GET_board_tasks i | POST_board_tasks i =>
      Some (board_resource s i)
  | PUT_task i | DELETE_task i => Some (task_resource s i)
  | _ => None
  end.

(** The board or task a list, read, update or delete request targets. *)
Definition targets (r : route) (s : db) : option resource :=
  match r with
  | POST_board_tasks _ => None
  | _ => path_resource r s
  end.

(** The status a route answers with when the resource is missing or is
    another user's. *)
Definition denial_status (r : route) (res : resource) : Z :=
  match r, res with
  | (PUT_board _ | DELETE_board _), _ => 404
  | _, NotFound => 404
  | _, _ => 403
  end.

(** Whether a string has a space in it. *)
Definition has_space (s : string) : bool :=
  exists_char (fun c => code c =? 32) s.

(** [{ ...u, googleId: g }] *)
Definition linked (g : string) (u : User.t) : User.t :=
  User.mk (User.id u) (User.email u) (User.passwordHash u) (Some g).

(** The Google ids of the users that have one. *)
Definition google_ids (l : list User.t) : list string :=
  flat_map (fun u => match User.googleId u with
                     | Some g => [g]
                     | None => []
                     end) l.

(** The [@unique] columns of [model User] hold no value twice. *)
Definition unique_users (s : db) : Prop :=
  NoDup (map User.email (users s)) /\ NoDup (google_ids (users s)).

(** Whether the store has a board with the id. *)
Definition has_board (s : db) (i : string) : bool :=
  existsb (fun b => (Board.id b =? i)%string) (boards s).

(** Every task row points to a board row. *)
Definition tasks_have_boards (s : db) : Prop :=
  Forall (fun t => has_board s (Task.boardId t) = true) (tasks s).

(** The rows of the three tables, without the counter and the call
    log. *)
Definition rows (s : db) : list User.t * list Board.t * list Task.t :=
  (users s, boards s, tasks s).

Section Properties.
Context {R : Runtime}.

(** The user a request is authenticated as: its bearer token verifies
    to that payload. *)
Definition authenticated_as (req : request) : option Token.payload :=
  match bearer_token (authorization req) with
  | Some token =>
      match jwt_verify token with
      | JwtOk p => Some p
      | JwtErr _ => None
      end
  | None => None
  end.

(** A progress value that [parseInt] reads, as NaN or as a number
    outside [0..100]. *)
Definition invalid_progress (v : jsval) : bool :=
  negb (is_undefined v)
  && match parseInt v with
     | Some (Some n) => (n <? 0) || (100 <? n)
     | Some None => true
     | None => false
     end.

(** A date field the handlers can store: a falsy value, which is
    stored as [null], or a value that [new Date] makes a valid date
    of. *)
Definition date_fine (v : jsval) : bool :=
  negb (truthy v)
  || match new_Date v with
     | Some (ValidDate _) => true
     | _ => false
     end.

Definition dates_fine (b : Body.t) : bool :=
  date_fine (Body.startDate b)
  && date_fine (Body.estimatedFinishDate b)
  && date_fine (Body.reminderDateTime b).

(** A key of [updateData] for a date field that does not raise. *)
Definition settled {A : Type} (k : option (option A)) : option A :=
  match k with Some a => a | None => None end.

(** The [updateData] a body with fine dates gives rise to, once
    [status] and [progress] are settled. *)
Definition updateData_of (b : Body.t) (st : option string) (pr : option Z)
  : UpdateData.t :=
  UpdateData.mk (Body.title b) (Body.description b)
                (settled (date_key (Body.startDate b)))
                (settled (date_key (Body.estimatedFinishDate b)))
                (settled (date_key (Body.reminderDateTime b))) st pr.

(** How a body fares in what a route does before it looks anything up:
    an exception escapes, a check answers 400, or the lookup is
    reached. *)
Inductive check : Type := Raises | Fails | Passes.

Definition body_check (req : request) : check :=
  let b := req_body req in
  match req_route req with
  | POST_boards | PUT_board _ =>
      if truthy_str (Body.name b) then Passes else Fails
  | POST_board_tasks _ =>
      if truthy_str (Body.title b)
         && includes validStatuses (or_else (Body.status b) (JStr "todo"))
      then match create_progress (or_else (Body.status b) (JStr "todo"))
                                 (Body.progress b) with
           | Some _ => Passes
           | None => Raises
           end
      else Fails
  | PUT_task _ =>
      match prepare_update b with
      | Raised => Raises
      | Rejected _ => Fails
      | Prepared d => if UpdateData.no_keys d then Fails else Passes
      end
  | _ => Passes
  end.

(** The body passes the checks a route makes before it looks anything
    up. *)
Definition passes_validation (req : request) : bool :=
  match body_check req with Passes => true | _ => false end.

(** The date column a creation stores for a field that is fine. *)
Definition stored_date (v : jsval) : option DateTime :=
  date_column (settled (date_or_null v)).

(** The row a task creation by the board's owner writes and answers
    with, for a body that passes the checks and has fine dates. *)
Definition created_task (s : db) (boardId : string) (b : Body.t) : Task.t :=
  let taskStatus := or_else (Body.status b) (JStr "todo") in
  Task.mk (uuid_of (uuid_counter s))
          (str_of (Body.title b))
          (flatten (Body.description b))
          (as_string taskStatus)
          (stored_date (Body.startDate b))
          (stored_date (Body.estimatedFinishDate b))
          (stored_date (Body.reminderDateTime b))
          (match create_progress taskStatus (Body.progress b) with
           | Some n => n
           | None => 0
           end)
          boardId.

(** What the [status] and [progress] keys of an update must be for the
    row they are written to. *)
Definition keys_ok (current : string) (st : option string) (pr : option Z)
  : Prop :=
  match st, pr with
  | Some s', Some n =>
      (s' = "todo" /\ n = 0) \/ (s' = "done" /\ n = 100)
      \/ (s' = "inprogress" /\ 0 <= n <= 100)
  | Some _, None => False
  | None, Some n => current = "inprogress" /\ 0 <= n <= 100
  | None, None => True
  end.

(** What a handler leaves behind and answers, for the write policy. *)
Definition keeps_policy (out : response * db) : Prop :=
  Forall task_ok (tasks (snd out))
  /\ (success (fst out) = true ->
      forall t, res_json (fst out) = TaskJson t ->
                task_ok t /\ In t (tasks (snd out))).

(** Whether the body has a key besides [status] and [progress] that the
    task update writes. *)
Definition other_keys (b : Body.t) : bool :=
  UpdateData.is_some (Body.title b)
  || UpdateData.is_some (Body.description b)
  || negb (is_undefined (Body.startDate b))
  || negb (is_undefined (Body.estimatedFinishDate b))
  || negb (is_undefined (Body.reminderDateTime b)).

(* ------------------------------------------------------------------ *)
(** ** Running the monad *)

Ltac run_store :=
  unfold prisma_user_findUnique_googleId, prisma_user_findUnique_email,
    prisma_user_update_googleId, prisma_user_create,
    prisma_board_findMany, prisma_board_create, prisma_board_findUnique,
    prisma_board_update, prisma_board_delete,
    prisma_task_findMany, prisma_task_create, prisma_task_findUnique,
    prisma_task_update, prisma_task_delete,
    bind, ret, called, get_db, put_users, put_boards, put_tasks, uuid in *;
  cbn [fst snd users boards tasks uuid_counter calls] in *.

Ltac proj_db := cbn [fst snd users boards tasks uuid_counter calls] in *.

Lemma authenticateToken_next (req : request) (p : Token.payload)
    (next : Token.payload -> M response) (s : db) :
  authenticated_as req = Some p ->
  authenticateToken req next s = next p s.
Proof.
  unfold authenticated_as, authenticateToken.
  destruct (bearer_token (authorization req)) as [token|]; [|discriminate].
  destruct (jwt_verify token); [discriminate|].
  now intros [= ->].
Qed.

Lemma empty_string_eqb (x : string) : (x =? "")%string = false <-> x <> "".
Proof. apply String.eqb_neq. Qed.

(* ------------------------------------------------------------------ *)
(** ** Authentication *)

(** C8.  On every route behind [authenticateToken]: a request without a
    bearer token is answered 401, and a request whose token fails
    verification (bad signature, expired) is answered 403; in both cases
    the final store is the initial one, call log included, so no store
    operation was run. *)
Theorem authenticateToken_rejects (req : request) (s : db) :
  protected (req_route req) = true ->
  (bearer_token (authorization req) = None ->
   handle req s = (sendStatus 401, s))
  /\ (forall token e,
        bearer_token (authorization req) = Some token ->
        jwt_verify token = JwtErr e ->
        handle req s = (sendStatus 403, s)).
Proof.
  intros Hp. split.
  - intros Hnone.
    unfold handle; destruct (req_route req); try discriminate Hp;
      unfold authenticateToken; rewrite Hnone; reflexivity.
  - intros token e Htok Herr.
    unfold handle; destruct (req_route req); try discriminate Hp;
      unfold authenticateToken; rewrite Htok, Herr; reflexivity.
Qed.

(** C3.  A signup with an email that is present and not yet in use is
    answered 201 exactly when the password meets the policy, and 400
    when it does not. *)
Theorem signup_password_policy (req : request) (s : db) :
  req_route req = POST_auth_signup ->
  truthy_str (Body.email (req_body req)) = true ->
  find (fun u => (User.email u =? str_of (Body.email (req_body req)))%string)
       (users s) = None ->
  let r := fst (handle req s) in
  (res_status r = 201 <-> password_policy (Body.password (req_body req)) = true)
  /\ (password_policy (Body.password (req_body req)) = false ->
      res_status r = 400).
Proof.
  intros Hr He Hfree. unfold handle. rewrite Hr. unfold auth_signup.
  rewrite He. cbn [negb orb].
  destruct (Body.password (req_body req)) as [p|]; cbn [truthy_str str_of password_policy negb].
  2:{ cbn. split; [split|]; intros; try discriminate; reflexivity. }
  destruct (p =? "")%string eqn:Hp; cbn [negb].
  { apply String.eqb_eq in Hp. subst p. cbn.
    split; [split|]; intros; try discriminate; reflexivity. }
  rewrite Z.leb_antisym.
  destruct (str_length p <? 8); cbn [negb andb].
  { cbn. split; [split|]; intros; try discriminate; reflexivity. }
  destruct (test_upper p); cbn [negb andb].
  2:{ cbn. split; [split|]; intros; try discriminate; reflexivity. }
  destruct (test_lower p); cbn [negb andb].
  2:{ cbn. split; [split|]; intros; try discriminate; reflexivity. }
  destruct (test_digit p); cbn [negb andb].
  2:{ cbn. split; [split|]; intros; try discriminate; reflexivity. }
  run_store. rewrite Hfree. cbn.
  split; [split|]; intros; try discriminate; reflexivity.
Qed.

(** C7.  A login with a password for an account whose [passwordHash] is
    the empty string is answered 401, whatever the password. *)
Theorem login_rejects_empty_hash
    (req : request) (s : db) (email password : string) (u : User.t) :
  req_route req = POST_auth_login ->
  Body.email (req_body req) = Some email -> email <> "" ->
  Body.password (req_body req) = Some password -> password <> "" ->
  find (fun u => (User.email u =? email)%string) (users s) = Some u ->
  User.passwordHash u = "" ->
  res_status (fst (handle req s)) = 401.
Proof.
  intros Hr He Hne Hp Hnp Hu Hh.
  unfold handle. rewrite Hr. unfold auth_login. rewrite He, Hp.
  cbn [truthy_str str_of].
  apply empty_string_eqb in Hne, Hnp. rewrite Hne, Hnp. cbn [negb orb].
  run_store. rewrite Hu, Hh. reflexivity.
Qed.

(** C9.  After a board deletion that is answered 204, the store holds no
    task whose [boardId] is the deleted board's id. *)
Theorem delete_board_cascades (req : request) (s : db) (boardId : string) :
  req_route req = DELETE_board boardId ->
  res_status (fst (handle req s)) = 204 ->
  forall t, In t (tasks (snd (handle req s))) -> Task.boardId t <> boardId.
Proof.
  intros Hr. unfold handle. rewrite Hr. unfold authenticateToken.
  destruct (bearer_token (authorization req)) as [token|]; [|discriminate].
  destruct (jwt_verify token) as [e|p]; [discriminate|].
  unfold delete_board.
  destruct (Token.userId p =? "")%string; [discriminate|].
  run_store.
  destruct (find _ (boards s)) as [b|]; [|discriminate].
  destruct (negb (Board.userId b =? Token.userId p)%string); [discriminate|].
  cbn [fst snd tasks]. intros _ t Hin.
  apply filter_In in Hin. destruct Hin as [_ Hne].
  apply negb_true_iff, String.eqb_neq in Hne. exact Hne.
Qed.

(* ------------------------------------------------------------------ *)
(** ** Task updates *)

Lemma find_update_first {A : Type} (p : A -> bool) (f : A -> A) (l : list A) :
  (forall x, p (f x) = p x) ->
  find p (update_first p f l) = option_map f (find p l).
Proof.
  intros Hp. induction l as [|x l IH]; [reflexivity|].
  cbn [update_first find]. destruct (p x) eqn:Hx; cbn [find].
  - now rewrite Hp, Hx.
  - now rewrite Hx.
Qed.

Lemma task_resource_owned (s : db) (i o : string) (t : Task.t) :
  stored_task s i = Some t ->
  task_resource s i = OwnedBy o ->
  option_map Board.userId
    (find (fun b => (Board.id b =? Task.boardId t)%string) (boards s))
  = Some o.
Proof.
  unfold stored_task, task_resource, board_resource. intros ->.
  destruct (find _ (boards s)); [|discriminate].
  now intros [= <-].
Qed.

Lemma date_fine_or_null (v : jsval) :
  date_fine v = true ->
  date_or_null v = Some (settled (date_or_null v))
  /\ accepted_date (settled (date_or_null v)) = true.
Proof.
  unfold date_fine, date_or_null. destruct (truthy v); cbn [negb orb].
  - destruct (new_Date v) as [[|x]|]; try discriminate. now split.
  - now split.
Qed.

Lemma date_fine_key (v : jsval) :
  date_fine v = true ->
  date_key v = Some (settled (date_key v))
  /\ match settled (date_key v) with
     | Some k => accepted_date k
     | None => true
     end = true.
Proof.
  intros H. unfold date_key. destruct (is_undefined v); [now split|].
  destruct (date_fine_or_null v H) as [E A]. rewrite E. cbn. now split.
Qed.

Lemma dates_fine_each (b : Body.t) :
  dates_fine b = true ->
  date_fine (Body.startDate b) = true
  /\ date_fine (Body.estimatedFinishDate b) = true
  /\ date_fine (Body.reminderDateTime b) = true.
Proof.
  unfold dates_fine. intros H.
  apply andb_true_iff in H. destruct H as [H H3].
  apply andb_true_iff in H. destruct H as [H1 H2]. now repeat split.
Qed.

(** With fine dates, lines 296-315 raise, reject or prepare as the
    status and the progress decide, and the client takes what is
    prepared. *)
Lemma prepare_update_fine (b : Body.t) :
  dates_fine b = true ->
  prepare_update b
  = match status_progress_keys (Body.status b) (Body.progress b) with
    | None => Raised
    | Some (inl m) => Rejected m
    | Some (inr (st, pr)) => Prepared (updateData_of b st pr)
    end
  /\ forall st pr, UpdateData.accepted (updateData_of b st pr) = true.
Proof.
  intros H. destruct (dates_fine_each b H) as (H1 & H2 & H3).
  destruct (date_fine_key _ H1) as [E1 A1].
  destruct (date_fine_key _ H2) as [E2 A2].
  destruct (date_fine_key _ H3) as [E3 A3].
  split.
  - unfold prepare_update, updateData_of. rewrite E1, E2, E3.
    cbn [settled]. reflexivity.
  - intros st pr. unfold UpdateData.accepted, updateData_of.
    cbn [UpdateData.startDate UpdateData.estimatedFinishDate
         UpdateData.reminderDateTime].
    destruct (settled (date_key (Body.startDate b)));
      destruct (settled (date_key (Body.estimatedFinishDate b)));
      destruct (settled (date_key (Body.reminderDateTime b)));
      now rewrite ?A1, ?A2, ?A3.
Qed.

(** The owner's update, past validation: what is written and answered
    when the progress key is kept. *)
Lemma put_task_writes (req : request) (s : db) (taskId : string)
    (p : Token.payload) (t : Task.t) (st : option string) (pr : option Z) :
  req_route req = PUT_task taskId ->
  authenticated_as req = Some p -> Token.userId p <> "" ->
  stored_task s taskId = Some t ->
  task_resource s taskId = OwnedBy (Token.userId p) ->
  dates_fine (req_body req) = true ->
  status_progress_keys (Body.status (req_body req))
                       (Body.progress (req_body req)) = Some (inr (st, pr)) ->
  UpdateData.no_keys (updateData_of (req_body req) st pr) = false ->
  UpdateData.is_some pr && negb (UpdateData.is_some st)
    && negb (Task.status t =? "inprogress")%string = false ->
  let t' := UpdateData.apply (updateData_of (req_body req) st pr) t in
  fst (handle req s) = mkRes 200 (TaskJson t')
  /\ stored_task (snd (handle req s)) taskId = Some t'.
Proof.
  intros Hr Ha Hu Ht Ho Hdates Hk Hn Hd t'.
  destruct (prepare_update_fine _ Hdates) as [Hprep Hacc].
  unfold handle. rewrite Hr, (authenticateToken_next _ _ _ _ Ha).
  unfold put_task. apply empty_string_eqb in Hu.
  rewrite Hu, Hprep, Hk, Hn.
  run_store. pose proof (task_resource_owned _ _ _ _ Ht Ho) as Hb.
  unfold stored_task in Ht. rewrite Ht, Hb, String.eqb_refl.
  cbn [negb UpdateData.progress UpdateData.status updateData_of].
  rewrite Hd. cbn [andb].
  fold (updateData_of (req_body req) st pr). rewrite Hacc. cbn [negb].
  proj_db. rewrite Ht. cbn [option_map fst snd].
  split; [reflexivity|].
  unfold stored_task. cbn [tasks].
  rewrite find_update_first by reflexivity. now rewrite Ht.
Qed.

Lemma no_keys_other (b : Body.t) :
  dates_fine b = true ->
  UpdateData.no_keys (updateData_of b None None) = negb (other_keys b).
Proof.
  intros H. destruct (dates_fine_each b H) as (H1 & H2 & H3).
  assert (K : forall v, date_fine v = true ->
                UpdateData.is_some (settled (date_key v))
                = negb (is_undefined v)).
  { intros v Hv. destruct (date_fine_key v Hv) as [E _].
    unfold date_key in *. destruct (is_undefined v); [reflexivity|].
    destruct (date_or_null v); [reflexivity|discriminate E]. }
  unfold UpdateData.no_keys, other_keys, updateData_of.
  cbn [UpdateData.title UpdateData.description UpdateData.startDate
       UpdateData.estimatedFinishDate UpdateData.reminderDateTime
       UpdateData.status UpdateData.progress].
  rewrite (K _ H1), (K _ H2), (K _ H3). cbn [UpdateData.is_some].
  now rewrite !orb_false_r.
Qed.

(** The owner's update when the progress key is dropped. *)
Lemma put_task_drops (req : request) (s : db) (taskId : string)
    (p : Token.payload) (t : Task.t) (n : Z) :
  req_route req = PUT_task taskId ->
  authenticated_as req = Some p -> Token.userId p <> "" ->
  stored_task s taskId = Some t ->
  task_resource s taskId = OwnedBy (Token.userId p) ->
  Task.status t <> "inprogress" ->
  dates_fine (req_body req) = true ->
  status_progress_keys (Body.status (req_body req))
                       (Body.progress (req_body req))
  = Some (inr (None, Some n)) ->
  let t' := UpdateData.apply (updateData_of (req_body req) None None) t in
  (other_keys (req_body req) = true ->
   fst (handle req s) = mkRes 200 (TaskJson t')
   /\ stored_task (snd (handle req s)) taskId = Some t')
  /\ (other_keys (req_body req) = false ->
      fst (handle req s) = message 400 "Progress cannot be updated..."
      /\ tasks (snd (handle req s)) = tasks s).
Proof.
  intros Hr Ha Hu Ht Ho Hs Hdates Hk t'.
  destruct (prepare_update_fine _ Hdates) as [Hprep Hacc].
  unfold handle. rewrite Hr, (authenticateToken_next _ _ _ _ Ha).
  unfold put_task. apply empty_string_eqb in Hu. rewrite Hu, Hprep, Hk.
  replace (UpdateData.no_keys (updateData_of (req_body req) None (Some n)))
    with false
    by (unfold UpdateData.no_keys; cbn; now rewrite !orb_true_r).
  run_store. pose proof (task_resource_owned _ _ _ _ Ht Ho) as Hb.
  unfold stored_task in Ht. rewrite Ht, Hb, String.eqb_refl.
  apply String.eqb_neq in Hs. rewrite Hs.
  cbn [negb andb UpdateData.progress UpdateData.status updateData_of
       UpdateData.is_some].
  change (UpdateData.delete_progress _)
    with (updateData_of (req_body req) None None).
  rewrite (no_keys_other _ Hdates), Hacc. cbn [negb].
  split; intros Hother; rewrite Hother; cbn [negb].
  - proj_db. rewrite Ht. cbn [option_map fst snd]. split; [reflexivity|].
    unfold stored_task. cbn [tasks].
    rewrite find_update_first by reflexivity. now rewrite Ht.
  - cbn. split; reflexivity.
Qed.

Lemma valid_or_invalid (v : jsval) :
  invalid_progress v = true ->
  is_undefined v = false
  /\ exists num, parseInt v = Some num /\ forall d, valid_or num d = d.
Proof.
  unfold invalid_progress. intros H.
  apply andb_true_iff in H. destruct H as [Hu H].
  apply negb_true_iff in Hu. split; [exact Hu|].
  destruct (parseInt v) as [[n|]|]; [| |discriminate].
  - exists (Some n). split; [reflexivity|]. intros d. unfold valid_or.
    apply orb_true_iff in H.
    destruct (n >=? 0) eqn:H0, (n <=? 100) eqn:H1; cbn [andb];
      try reflexivity.
    exfalso. destruct H as [H|H]; lia.
  - exists None. split; reflexivity.
Qed.

Lemma no_keys_status (b : Body.t) (st : string) (pr : option Z) :
  UpdateData.no_keys (updateData_of b (Some st) pr) = false.
Proof.
  unfold UpdateData.no_keys, updateData_of.
  cbn [UpdateData.status UpdateData.is_some].
  now rewrite orb_true_r, orb_true_l.
Qed.

Lemma passes_create (req : request) (boardId : string) :
  req_route req = POST_board_tasks boardId ->
  passes_validation req = true ->
  truthy_str (Body.title (req_body req)) = true
  /\ includes validStatuses
       (or_else (Body.status (req_body req)) (JStr "todo")) = true
  /\ exists n,
       create_progress (or_else (Body.status (req_body req)) (JStr "todo"))
                       (Body.progress (req_body req)) = Some n.
Proof.
  intros Hr. unfold passes_validation, body_check. rewrite Hr.
  destruct (truthy_str _ && includes _ _) eqn:E; [|discriminate].
  apply andb_true_iff in E. destruct E as [E1 E2].
  destruct (create_progress _ _) as [n|]; [|discriminate].
  intros _. repeat split; try assumption. now exists n.
Qed.

Lemma post_board_tasks_creates (req : request) (s : db) (boardId : string)
    (p : Token.payload) :
  req_route req = POST_board_tasks boardId ->
  authenticated_as req = Some p -> Token.userId p <> "" ->
  board_resource s boardId = OwnedBy (Token.userId p) ->
  passes_validation req = true ->
  dates_fine (req_body req) = true ->
  fst (handle req s) = mkRes 201 (TaskJson (created_task s boardId (req_body req)))
  /\ tasks (snd (handle req s))
     = (tasks s ++ [created_task s boardId (req_body req)])%list.
Proof.
  intros Hr Ha Hu Ho Hv Hdates.
  destruct (passes_create req boardId Hr Hv) as (Htitle & Hst & n & Hn).
  destruct (dates_fine_each _ Hdates) as (H1 & H2 & H3).
  destruct (date_fine_or_null _ H1) as [E1 A1].
  destruct (date_fine_or_null _ H2) as [E2 A2].
  destruct (date_fine_or_null _ H3) as [E3 A3].
  unfold handle. rewrite Hr, (authenticateToken_next _ _ _ _ Ha).
  unfold post_board_tasks. apply empty_string_eqb in Hu.
  rewrite Hu, Htitle, Hst, Hn. cbn [negb].
  run_store. unfold board_resource in Ho.
  destruct (find _ (boards s)) as [b|]; [|discriminate].
  injection Ho as Ho. rewrite Ho, String.eqb_refl. cbn [negb].
  rewrite E1, E2, E3, A1, A2, A3. cbn [andb negb]. proj_db.
  unfold created_task, stored_date. rewrite Hn. split; reflexivity.
Qed.

(** C4 (as amended).  An update by the task's owner that sets the
    status to "inprogress" and carries no progress, with date fields
    that are absent, falsy or valid dates, is answered 200 with the
    task, and the stored task then has status "inprogress" and progress
    25. *)
Theorem update_inprogress_defaults_to_25 (req : request) (s : db)
    (taskId : string) (p : Token.payload) (t : Task.t) :
  req_route req = PUT_task taskId ->
  authenticated_as req = Some p -> Token.userId p <> "" ->
  stored_task s taskId = Some t ->
  task_resource s taskId = OwnedBy (Token.userId p) ->
  Body.status (req_body req) = JStr "inprogress" ->
  Body.progress (req_body req) = JUndefined ->
  dates_fine (req_body req) = true ->
  exists t',
    fst (handle req s) = mkRes 200 (TaskJson t')
    /\ stored_task (snd (handle req s)) taskId = Some t'
    /\ Task.status t' = "inprogress"
    /\ Task.progress t' = 25.
Proof.
  intros Hr Ha Hu Ht Ho Hs Hp Hdates.
  destruct (put_task_writes req s taskId p t (Some "inprogress") (Some 25))
    as [Hres Hst]; try assumption.
  - rewrite Hs, Hp. reflexivity.
  - apply no_keys_status.
  - reflexivity.
  - eexists. split; [exact Hres|]. split; [exact Hst|]. split; reflexivity.
Qed.

(** C10 (as amended).  With status "inprogress", date fields that are
    absent, falsy or valid dates, and a progress value that [parseInt]
    reads as NaN or as a number outside 0..100, an update by the task's
    owner is answered 200 and stores progress 25, whereas a task
    creation by the board's owner with the same value is answered 201
    and stores progress 0. *)
Theorem invalid_progress_update_25_create_0 (v : jsval) :
  invalid_progress v = true ->
  (forall (req : request) (s : db) (taskId : string) (p : Token.payload)
          (t : Task.t),
      req_route req = PUT_task taskId ->
      authenticated_as req = Some p -> Token.userId p <> "" ->
      stored_task s taskId = Some t ->
      task_resource s taskId = OwnedBy (Token.userId p) ->
      Body.status (req_body req) = JStr "inprogress" ->
      Body.progress (req_body req) = v ->
      dates_fine (req_body req) = true ->
      exists t',
        fst (handle req s) = mkRes 200 (TaskJson t')
        /\ stored_task (snd (handle req s)) taskId = Some t'
        /\ Task.status t' = "inprogress"
        /\ Task.progress t' = 25)
  /\ (forall (req : request) (s : db) (boardId : string) (p : Token.payload),
        req_route req = POST_board_tasks boardId ->
        authenticated_as req = Some p -> Token.userId p <> "" ->
        board_resource s boardId = OwnedBy (Token.userId p) ->
        truthy_str (Body.title (req_body req)) = true ->
        Body.status (req_body req) = JStr "inprogress" ->
        Body.progress (req_body req) = v ->
        dates_fine (req_body req) = true ->
        exists t',
          fst (handle req s) = mkRes 201 (TaskJson t')
          /\ In t' (tasks (snd (handle req s)))
          /\ Task.status t' = "inprogress"
          /\ Task.progress t' = 0).
Proof.
  intros Hv. destruct (valid_or_invalid v Hv) as (Hu' & num & Hnum & Hval).
  assert (Hc : create_progress (JStr "inprogress") v = Some 0).
  { unfold create_progress. cbn [strict_eq_str String.eqb Ascii.eqb Bool.eqb].
    destruct v; cbn [nullish_or];
      try (rewrite Hnum, Hval; reflexivity).
    - discriminate Hu'.
    - unfold parseInt. cbn [to_String option_map].
      assert (H0 : Number_toString (inject_Z 0) = "0")
        by (apply Number_toString_integer; vm_compute; reflexivity).
      change 0%Q with (inject_Z 0). rewrite H0. reflexivity. }
  split.
  - intros req s taskId p t Hr Ha Hu Ht Ho Hs Hp Hdates.
    destruct (put_task_writes req s taskId p t (Some "inprogress") (Some 25))
      as [Hres Hst]; try assumption.
    + rewrite Hs, Hp. unfold status_progress_keys.
      cbn [is_undefined negb includes validStatuses existsb String.eqb
           Ascii.eqb Bool.eqb orb andb strict_eq_str as_string].
      rewrite Hu', Hnum, Hval. reflexivity.
    + apply no_keys_status.
    + reflexivity.
    + eexists. split; [exact Hres|]. split; [exact Hst|]. split; reflexivity.
  - intros req s boardId p Hr Ha Hu Ho Htitle Hs Hp Hdates.
    destruct (post_board_tasks_creates req s boardId p) as [Hres Hst];
      try assumption.
    + unfold passes_validation, body_check.
      rewrite Hr, Htitle, Hs, Hp.
      cbn [or_else truthy String.eqb negb includes validStatuses existsb
           Ascii.eqb Bool.eqb orb andb].
      now rewrite Hc.
    + eexists. split; [exact Hres|]. split.
      * rewrite Hst. apply in_or_app. right. now left.
      * unfold created_task. rewrite Hs, Hp.
        cbn [or_else truthy String.eqb negb as_string
             Ascii.eqb Bool.eqb andb Task.status Task.progress].
        rewrite Hc. split; reflexivity.
Qed.

Lemma parseInt_defined (v : jsval) (n : option Z) :
  parseInt v = Some n -> n <> None -> is_undefined v = false.
Proof.
  destruct v; try reflexivity. cbn. intros [= <-] H. now elim H.
Qed.

(** C5 (as amended).  An update by the task's owner with no status, a
    progress that [parseInt] reads as an integer of 0..100 and date
    fields that are absent, falsy or valid dates, on a task whose status
    is not "inprogress": when the body has another key that the update
    writes, the answer is 200, the other keys are written and status
    and progress stay as they were; when it has none, the answer is 400
    and no task row changes. *)
Theorem progress_without_status_dropped (req : request) (s : db)
    (taskId : string) (p : Token.payload) (t : Task.t) (n : Z) :
  req_route req = PUT_task taskId ->
  authenticated_as req = Some p -> Token.userId p <> "" ->
  stored_task s taskId = Some t ->
  task_resource s taskId = OwnedBy (Token.userId p) ->
  Task.status t <> "inprogress" ->
  Body.status (req_body req) = JUndefined ->
  parseInt (Body.progress (req_body req)) = Some (Some n) -> 0 <= n <= 100 ->
  dates_fine (req_body req) = true ->
  let t' := UpdateData.apply (updateData_of (req_body req) None None) t in
  (other_keys (req_body req) = true ->
   fst (handle req s) = mkRes 200 (TaskJson t')
   /\ stored_task (snd (handle req s)) taskId = Some t'
   /\ Task.progress t' = Task.progress t
   /\ Task.status t' = Task.status t)
  /\ (other_keys (req_body req) = false ->
      res_status (fst (handle req s)) = 400
      /\ tasks (snd (handle req s)) = tasks s).
Proof.
  intros Hr Ha Hu Ht Ho Hs Hst Hp Hn Hdates t'.
  assert (Hk : status_progress_keys (Body.status (req_body req))
                 (Body.progress (req_body req))
               = Some (inr (None, Some n))).
  { unfold status_progress_keys.
    rewrite Hst, (parseInt_defined _ _ Hp), Hp by discriminate.
    cbn [is_undefined negb].
    destruct (n <? 0) eqn:H0; [lia|].
    destruct (n >? 100) eqn:H1; [lia|]. reflexivity. }
  destruct (put_task_drops req s taskId p t n Hr Ha Hu Ht Ho Hs Hdates Hk)
    as [Hyes Hno].
  split.
  - intros Hother. destruct (Hyes Hother) as [Hres Hstored].
    repeat split; assumption.
  - intros Hother. destruct (Hno Hother) as [Hres Htasks].
    rewrite Hres. split; [reflexivity|exact Htasks].
Qed.

(* ------------------------------------------------------------------ *)
(** ** The write policy is an invariant *)

Lemma apply_ok (d : UpdateData.t) (t : Task.t) :
  task_ok t ->
  keys_ok (Task.status t) (UpdateData.status d) (UpdateData.progress d) ->
  task_ok (UpdateData.apply d t).
Proof.
  unfold task_ok, keys_ok, UpdateData.apply.
  cbn [Task.progress Task.status].
  destruct (UpdateData.status d) as [s'|], (UpdateData.progress d) as [n|];
    cbn [UpdateData.or_keep]; intros (Hr & Ht & Hd) Hk.
  - destruct Hk as [[-> ->]|[[-> ->]|[-> Hn]]];
      repeat split; try lia; intros; try discriminate; reflexivity.
  - contradiction.
  - destruct Hk as [Hc Hn]. rewrite Hc.
    repeat split; try lia; intros; discriminate.
  - repeat split; try lia; assumption.
Qed.

Lemma status_progress_keys_ok (status progress : jsval)
    (st : option string) (pr : option Z) (current : string) :
  status_progress_keys status progress = Some (inr (st, pr)) ->
  match st with
  | Some _ => keys_ok current st pr
  | None => match pr with Some n => 0 <= n <= 100 | None => True end
  end.
Proof.
  unfold status_progress_keys.
  destruct (is_undefined status); cbn [negb].
  - destruct (is_undefined progress); cbn [negb].
    + now intros [= <- <-].
    + destruct (parseInt progress) as [[n|]|]; [| discriminate ..].
      destruct (n <? 0) eqn:H0; [discriminate|].
      destruct (n >? 100) eqn:H1; [discriminate|].
      cbn [orb]. intros [= <- <-]. lia.
  - destruct (includes validStatuses status) eqn:Hin; [|discriminate].
    cbn [negb]. destruct status; try discriminate Hin.
    cbn [strict_eq_str as_string]. cbn [includes validStatuses existsb] in Hin.
    destruct (s =? "todo")%string eqn:E1.
    { apply String.eqb_eq in E1. intros [= <- <-]. cbn. auto. }
    destruct (s =? "done")%string eqn:E2.
    { apply String.eqb_eq in E2. intros [= <- <-]. cbn. auto. }
    destruct (s =? "inprogress")%string eqn:E3.
    2:{ revert Hin. rewrite ?E1, ?E2, ?E3. discriminate. }
    apply String.eqb_eq in E3.
    assert (Hv : forall o d, 0 <= d <= 100 -> 0 <= valid_or o d <= 100).
    { intros [n|] d Hd; cbn [valid_or]; [|exact Hd].
      destruct (n >=? 0) eqn:G0; [|exact Hd].
      destruct (n <=? 100) eqn:G1; [|exact Hd]. cbn [andb]. lia. }
    destruct (is_undefined progress);
      [|destruct (parseInt progress) as [num|]; [|discriminate]];
      intros [= <- <-]; cbn [keys_ok];
      right; right; split; try assumption; [lia|apply Hv; lia].
Qed.

Lemma update_first_Forall {A : Type} (P : A -> Prop) (p : A -> bool)
    (f : A -> A) (l : list A) :
  Forall P l ->
  (forall x, find p l = Some x -> P x -> P (f x)) ->
  Forall P (update_first p f l).
Proof.
  induction 1 as [|x l Hx Hl IH]; intros Hf; cbn [update_first];
    [constructor|].
  cbn [find] in Hf. destruct (p x).
  - constructor; [now apply Hf|assumption].
  - constructor; [assumption|]. now apply IH.
Qed.

Lemma update_first_In {A : Type} (p : A -> bool) (f : A -> A) (l : list A)
    (x : A) :
  find p l = Some x -> In (f x) (update_first p f l).
Proof.
  induction l as [|y l IH]; [discriminate|].
  cbn [find update_first]. destruct (p y).
  - intros [= ->]. now left.
  - intros H. right. now apply IH.
Qed.

Lemma create_progress_ok (taskStatus progress : jsval) (n : Z) :
  includes validStatuses taskStatus = true ->
  create_progress taskStatus progress = Some n ->
  0 <= n <= 100
  /\ (as_string taskStatus = "todo" -> n = 0)
  /\ (as_string taskStatus = "done" -> n = 100).
Proof.
  intros Hin. unfold create_progress.
  destruct taskStatus as [| | | |st| |]; try discriminate Hin.
  cbn [strict_eq_str as_string].
  destruct (st =? "done")%string eqn:E1.
  { apply String.eqb_eq in E1. subst st. intros [= <-].
    repeat split; try lia; intros; discriminate. }
  destruct (st =? "todo")%string eqn:E2.
  { apply String.eqb_eq in E2. subst st. intros [= <-].
    repeat split; try lia; intros; discriminate. }
  apply String.eqb_neq in E1, E2.
  destruct (parseInt _) as [num|]; [|discriminate]. intros [= <-].
  assert (0 <= valid_or num 0 <= 100).
  { destruct num as [n|]; cbn [valid_or]; [|lia].
    destruct (n >=? 0) eqn:G0, (n <=? 100) eqn:G1; cbn [andb]; lia. }
  repeat split; try lia; intros; contradiction.
Qed.

Lemma keeps_policy_no_task (r : response) (s : db) :
  Forall task_ok (tasks s) ->
  (forall t, res_json r <> TaskJson t) ->
  keeps_policy (r, s).
Proof.
  intros Hs Hr. split; [exact Hs|].
  intros _ t Ht. now apply Hr in Ht.
Qed.

Ltac no_task :=
  apply keeps_policy_no_task; [proj_db; assumption | intros ? [=]].

Lemma prepare_update_keys (b : Body.t) (d : UpdateData.t) :
  prepare_update b = Prepared d ->
  status_progress_keys (Body.status b) (Body.progress b)
  = Some (inr (UpdateData.status d, UpdateData.progress d)).
Proof.
  unfold prepare_update.
  destruct (date_key (Body.startDate b)); [|discriminate].
  destruct (date_key (Body.estimatedFinishDate b)); [|discriminate].
  destruct (date_key (Body.reminderDateTime b)); [|discriminate].
  destruct (status_progress_keys _ _) as [[m|[st pr]]|]; try discriminate.
  now intros [= <-].
Qed.

Lemma put_task_keeps_policy (taskId : string) (req : request)
    (p : Token.payload) (s : db) :
  Forall task_ok (tasks s) -> keeps_policy (put_task taskId req p s).
Proof.
  intros Hs. unfold put_task.
  destruct (Token.userId p =? "")%string; [no_task|].
  destruct (prepare_update (req_body req)) as [|m|u] eqn:Hprep;
    [no_task|no_task|].
  pose proof (prepare_update_keys _ _ Hprep) as Hk.
  destruct (UpdateData.no_keys u); [no_task|].
  run_store.
  destruct (find _ (tasks s)) as [t|] eqn:Ht; [|no_task].
  destruct (option_map _ _) as [owner|]; [|no_task].
  destruct (negb (owner =? Token.userId p)%string); [no_task|].
  set (dropped := UpdateData.is_some (UpdateData.progress u)
                  && negb (UpdateData.is_some (UpdateData.status u))
                  && negb (Task.status t =? "inprogress")%string).
  set (d := if dropped then _ else _).
  destruct (dropped && UpdateData.no_keys d); [no_task|].
  destruct (negb (UpdateData.accepted d)); [no_task|].
  proj_db. rewrite Ht. cbn [option_map].
  pose proof (find_some _ _ Ht) as [Hin _].
  assert (Hok : task_ok t) by (eapply Forall_forall; eassumption).
  assert (Hd : task_ok (UpdateData.apply d t)).
  { apply apply_ok; [exact Hok|].
    pose proof (status_progress_keys_ok _ _ _ _ (Task.status t) Hk) as Hkeys.
    subst d dropped. clear Hk. revert Hkeys.
    destruct u as [ttl desc sd efd rdt st pr].
    cbn [UpdateData.status UpdateData.progress].
    destruct st as [s'|]; intros Hkeys.
    - cbn [UpdateData.is_some negb andb]. rewrite andb_false_r.
      cbn [andb UpdateData.status UpdateData.progress]. exact Hkeys.
    - destruct pr as [n|]; cbn [UpdateData.is_some negb andb].
      + destruct (Task.status t =? "inprogress")%string eqn:E; cbn [negb].
        * apply String.eqb_eq in E. cbn. split; assumption.
        * cbn. exact I.
      + cbn. exact I. }
  split; proj_db.
  - apply update_first_Forall; [exact Hs|].
    intros x Hx _. rewrite Ht in Hx. now injection Hx as <-.
  - intros _ t' [= <-]. split; [exact Hd|].
    now apply update_first_In.
Qed.

Lemma filter_keeps {A : Type} (P : A -> Prop) (f : A -> bool) (l : list A) :
  Forall P l -> Forall P (filter f l).
Proof.
  rewrite !Forall_forall. intros H x Hx.
  apply filter_In in Hx. now apply H.
Qed.

Ltac branches :=
  repeat match goal with
    | |- keeps_policy (match ?x with _ => _ end _) => destruct x eqn:?
    | |- keeps_policy (match ?x with _ => _ end) => destruct x eqn:?
    end.

Lemma post_board_tasks_keeps_policy (boardId : string) (req : request)
    (p : Token.payload) (s : db) :
  Forall task_ok (tasks s) -> keeps_policy (post_board_tasks boardId req p s).
Proof.
  intros Hs. unfold post_board_tasks.
  destruct (Token.userId p =? "")%string; [no_task|].
  destruct (negb (truthy_str _)); [no_task|].
  destruct (includes validStatuses _) eqn:Hin; cbn [negb]; [|no_task].
  destruct (create_progress _ _) as [n|] eqn:Hn; [|no_task].
  run_store.
  destruct (find _ (boards s)) as [b|]; [|no_task].
  destruct (negb (Board.userId b =? Token.userId p)%string); [no_task|].
  destruct (date_or_null (Body.startDate (req_body req))) as [sd|];
    [|no_task].
  destruct (date_or_null (Body.estimatedFinishDate (req_body req)))
    as [efd|]; [|no_task].
  destruct (date_or_null (Body.reminderDateTime (req_body req))) as [rdt|];
    [|no_task].
  destruct (negb _); [no_task|]. proj_db.
  match goal with
  | |- keeps_policy (_, mkDb _ _ (_ ++ [?row]) _ _) => set (t := row)
  end.
  assert (Hok : task_ok t).
  { destruct (create_progress_ok _ _ _ Hin Hn) as (H1 & H2 & H3).
    unfold task_ok. subst t. cbn [Task.progress Task.status].
    repeat split; try lia; assumption. }
  split; proj_db.
  - apply Forall_app. split; [exact Hs|]. now constructor.
  - intros _ t' [= <-]. split; [exact Hok|].
    apply in_or_app. right. now left.
Qed.

Lemma google_verify_rows (profile : GoogleProfile) (s : db) :
  boards (snd (google_verify profile s)) = boards s
  /\ tasks (snd (google_verify profile s)) = tasks s.
Proof.
  unfold google_verify. run_store.
  repeat match goal with
    | |- context [match ?x with _ => _ end] => destruct x eqn:?
    end; split; reflexivity.
Qed.

Lemma handle_keeps_policy (req : request) (s : db) :
  Forall task_ok (tasks s) -> keeps_policy (handle req s).
Proof.
  intros Hs. unfold handle.
  destruct (req_route req); unfold authenticateToken;
    try (destruct (bearer_token (authorization req)) as [token|]; [|no_task];
         destruct (jwt_verify token) as [e|p]; [no_task|]).
  - no_task.
  - unfold auth_signup. run_store. branches; no_task.
  - unfold auth_login. run_store. branches; no_task.
  - unfold auth_google_callback, bind.
    pose proof (google_verify_rows profile s) as [Hb Ht].
    destruct (google_verify profile s) as [[u|] d]; cbn [snd] in Hb, Ht;
      apply keeps_policy_no_task; try (intros ? [=]);
      cbn [snd]; now rewrite Ht.
  - unfold get_boards. run_store. branches; no_task.
  - unfold post_boards. run_store. branches; no_task.
  - unfold put_board. run_store. branches; no_task.
  - unfold delete_board. run_store. branches; try no_task.
    apply keeps_policy_no_task; [proj_db; now apply filter_keeps|intros ? [=]].
  - unfold get_board_tasks. run_store. branches; no_task.
  - now apply post_board_tasks_keeps_policy.
  - now apply put_task_keeps_policy.
  - unfold delete_task. run_store. branches; try no_task.
    apply keeps_policy_no_task; [proj_db; now apply filter_keeps|intros ? [=]].
Qed.

Lemma reachable_tasks_ok (s : db) : reachable s -> Forall task_ok (tasks s).
Proof.
  induction 1 as [|s req _ IH]; [constructor|].
  now apply handle_keeps_policy.
Qed.

(** C1.  In every state the server reaches, a task creation or a task
    update that succeeds answers with a task that is stored and has its
    progress in 0..100, 0 under status "todo" and 100 under status
    "done"; and so has every task of the store afterwards. *)
Theorem task_writes_keep_policy (s : db) (req : request) :
  reachable s ->
  (exists boardId, req_route req = POST_board_tasks boardId)
  \/ (exists taskId, req_route req = PUT_task taskId) ->
  success (fst (handle req s)) = true ->
  (exists t, res_json (fst (handle req s)) = TaskJson t
             /\ In t (tasks (snd (handle req s)))
             /\ task_ok t)
  /\ Forall task_ok (tasks (snd (handle req s))).
Proof.
  intros Hreach Hroute Hsucc.
  pose proof (handle_keeps_policy req s (reachable_tasks_ok s Hreach))
    as [Hall Hres].
  split; [|exact Hall].
  assert (Ht : exists t, res_json (fst (handle req s)) = TaskJson t).
  { revert Hsucc. unfold handle.
    destruct Hroute as [[boardId ->]|[taskId ->]]; unfold authenticateToken;
      (destruct (bearer_token (authorization req)) as [token|];
       [|discriminate]);
      (destruct (jwt_verify token) as [e|p]; [discriminate|]).
    - unfold post_board_tasks. run_store.
      repeat match goal with
        | |- context [match ?x with _ => _ end] => destruct x eqn:?
        end; try discriminate; intros _; eexists; reflexivity.
    - unfold put_task. run_store.
      repeat match goal with
        | |- success (fst (match ?x with _ => _ end _)) = _ -> _ =>
            destruct x eqn:?
        | |- success (fst (match ?x with _ => _ end)) = _ -> _ =>
            destruct x eqn:?
        end; try discriminate; intros _; eexists; reflexivity. }
  destruct Ht as [t Ht]. exists t.
  destruct (Hres Hsucc t Ht) as [Hok Hin].
  split; [exact Ht|]. split; [exact Hin|exact Hok].
Qed.

(* ------------------------------------------------------------------ *)
(** ** Ownership *)

(** What a request is answered before any lookup when its body does not
    reach one: 400 where a check fails, nothing where an exception
    escapes; the store is left as it was. *)
Lemma handle_early (req : request) (s : db) (p : Token.payload) :
  authenticated_as req = Some p -> Token.userId p <> "" ->
  protected (req_route req) = true ->
  match body_check req with
  | Raises => handle req s = (uncaught, s)
  | Fails => exists m, handle req s = (message 400 m, s)
  | Passes => True
  end.
Proof.
  intros Ha Hu Hp. apply empty_string_eqb in Hu.
  unfold handle, body_check.
  destruct (req_route req); try discriminate Hp; try exact I;
    rewrite (authenticateToken_next _ _ _ _ Ha).
  - unfold post_boards. rewrite Hu.
    destruct (truthy_str _); [exact I|eexists; reflexivity].
  - unfold put_board. rewrite Hu.
    destruct (truthy_str _); [exact I|eexists; reflexivity].
  - unfold post_board_tasks. rewrite Hu.
    destruct (truthy_str (Body.title (req_body req))); cbn [negb andb];
      [|eexists; reflexivity].
    destruct (includes validStatuses _); cbn [negb];
      [|eexists; reflexivity].
    destruct (create_progress _ _); [exact I|reflexivity].
  - unfold put_task. rewrite Hu.
    destruct (prepare_update (req_body req)) as [|m|d];
      [reflexivity|eexists; reflexivity|].
    destruct (UpdateData.no_keys d); [eexists; reflexivity|exact I].
Qed.

(** A request that reaches the lookup, for a resource that is missing
    or another user's: the answer is the route's denial status with a
    message, and no row changes. *)
Lemma handle_denied (req : request) (s : db) (p : Token.payload)
    (res : resource) :
  authenticated_as req = Some p -> Token.userId p <> "" ->
  path_resource (req_route req) s = Some res ->
  res = NotFound \/ (exists o, res = OwnedBy o /\ o <> Token.userId p) ->
  body_check req = Passes ->
  (exists m, fst (handle req s) = message (denial_status (req_route req) res) m)
  /\ rows (snd (handle req s)) = rows s.
Proof.
  intros Ha Hu Hres Hden Hv.
  assert (Hne : forall o, o <> Token.userId p ->
                          negb (o =? Token.userId p)%string = true).
  { intros o Ho. now apply negb_true_iff, String.eqb_neq. }
  apply empty_string_eqb in Hu.
  unfold handle. unfold body_check in Hv.
  destruct (req_route req) as [| | | | | |i|i|i|i|i|i]; try discriminate Hres;
    rewrite (authenticateToken_next _ _ _ _ Ha);
    cbn [path_resource] in Hres; injection Hres as <-;
    cbn [denial_status].
  - (* PUT board *)
    unfold put_board. rewrite Hu.
    destruct (truthy_str (Body.name (req_body req))); [|discriminate Hv].
    cbn [negb]. run_store. unfold board_resource in Hden.
    destruct (find _ (boards s)) as [b|].
    + destruct Hden as [|(o & [= <-] & Ho)]; [discriminate|].
      rewrite (Hne _ Ho). split; [eexists|]; reflexivity.
    + split; [eexists|]; reflexivity.
  - (* DELETE board *)
    unfold delete_board. rewrite Hu.
    run_store. unfold board_resource in Hden.
    destruct (find _ (boards s)) as [b|].
    + destruct Hden as [|(o & [= <-] & Ho)]; [discriminate|].
      rewrite (Hne _ Ho). split; [eexists|]; reflexivity.
    + split; [eexists|]; reflexivity.
  - (* GET tasks *)
    unfold get_board_tasks. rewrite Hu.
    run_store. unfold board_resource in Hden |- *.
    destruct (find _ (boards s)) as [b|].
    + destruct Hden as [|(o & [= <-] & Ho)]; [discriminate|].
      rewrite (Hne _ Ho). split; [eexists|]; reflexivity.
    + split; [eexists|]; reflexivity.
  - (* POST task *)
    unfold post_board_tasks. rewrite Hu.
    destruct (truthy_str (Body.title (req_body req))); cbn [negb andb] in *;
      [|discriminate Hv].
    destruct (includes validStatuses _); cbn [negb]; [|discriminate Hv].
    destruct (create_progress _ _); [|discriminate Hv].
    run_store. unfold board_resource in Hden |- *.
    destruct (find _ (boards s)) as [b|].
    + destruct Hden as [|(o & [= <-] & Ho)]; [discriminate|].
      rewrite (Hne _ Ho). split; [eexists|]; reflexivity.
    + split; [eexists|]; reflexivity.
  - (* PUT task *)
    unfold put_task. rewrite Hu.
    destruct (prepare_update (req_body req)) as [|m|d]; try discriminate Hv.
    destruct (UpdateData.no_keys d); [discriminate Hv|].
    run_store. unfold task_resource, board_resource in Hden |- *.
    destruct (find _ (tasks s)) as [t|];
      [|split; [eexists|]; reflexivity].
    destruct (find _ (boards s)) as [b|]; cbn [option_map].
    + destruct Hden as [|(o & [= <-] & Ho)]; [discriminate|].
      rewrite (Hne _ Ho). split; [eexists|]; reflexivity.
    + destruct Hden as [|(o & [=] & _)]; discriminate.
  - (* DELETE task *)
    unfold delete_task. rewrite Hu.
    run_store. unfold task_resource, board_resource in Hden |- *.
    destruct (find _ (tasks s)) as [t|];
      [|split; [eexists|]; reflexivity].
    destruct (find _ (boards s)) as [b|]; cbn [option_map].
    + destruct Hden as [|(o & [= <-] & Ho)]; [discriminate|].
      rewrite (Hne _ Ho). split; [eexists|]; reflexivity.
    + destruct Hden as [|(o & [=] & _)]; discriminate.
Qed.

Lemma path_protected (r : route) (s : db) (res : resource) :
  path_resource r s = Some res -> protected r = true.
Proof. destruct r; try discriminate; reflexivity. Qed.

(** The board list a user is answered with holds that user's boards
    only. *)
Lemma get_boards_lists_own (req : request) (s : db) (p : Token.payload)
    (l : list Board.t) :
  req_route req = GET_boards ->
  authenticated_as req = Some p ->
  res_json (fst (handle req s)) = BoardList l ->
  Forall (fun b => Board.userId b = Token.userId p) l.
Proof.
  intros Hr Ha. unfold handle.
  rewrite Hr, (authenticateToken_next _ _ _ _ Ha). unfold get_boards.
  destruct (Token.userId p =? "")%string; [discriminate|].
  run_store. intros [= <-].
  apply Forall_forall. intros b Hb.
  apply filter_In in Hb. now apply String.eqb_eq.
Qed.

(** C2 (as amended).  A board, or a task under it, that user A owns and
    a request by another user B that lists, reads, updates or deletes
    it: the board and task rows are as before, and the answer is a
    message with status 400 when the body fails the route's checks, and
    otherwise with status 404 (PUT and DELETE on the board) or 403 (the
    task routes); where evaluating the body raises an exception, the
    handler sends nothing. *)
Theorem other_user_is_denied (req : request) (s : db) (p : Token.payload)
    (owner : string) :
  authenticated_as req = Some p -> Token.userId p <> "" ->
  targets (req_route req) s = Some (OwnedBy owner) ->
  owner <> Token.userId p ->
  boards (snd (handle req s)) = boards s
  /\ tasks (snd (handle req s)) = tasks s
  /\ (body_check req = Fails ->
      exists m, fst (handle req s) = message 400 m)
  /\ (body_check req = Passes ->
      exists m, fst (handle req s)
                = message (match req_route req with
                           | PUT_board _ | DELETE_board _ => 404
                           | _ => 403
                           end) m)
  /\ (body_check req = Raises -> fst (handle req s) = uncaught).
Proof.
  intros Ha Hu Ht Ho.
  assert (Hp : path_resource (req_route req) s = Some (OwnedBy owner)).
  { destruct (req_route req); try discriminate Ht; exact Ht. }
  pose proof (handle_early req s p Ha Hu (path_protected _ _ _ Hp)) as Hearly.
  assert (Hden : body_check req = Passes ->
                 (exists m, fst (handle req s)
                            = message (denial_status (req_route req)
                                         (OwnedBy owner)) m)
                 /\ rows (snd (handle req s)) = rows s).
  { intros Hv. apply (handle_denied req s p (OwnedBy owner)); try assumption.
    right. exists owner. now split. }
  assert (Hrows : rows (snd (handle req s)) = rows s).
  { destruct (body_check req).
    - now rewrite Hearly.
    - destruct Hearly as [m Hm]. now rewrite Hm.
    - now apply Hden. }
  injection Hrows as _ Hb Htk.
  split; [exact Hb|]. split; [exact Htk|]. split; [|split].
  - intros Hv. rewrite Hv in Hearly. destruct Hearly as [m Hm].
    exists m. now rewrite Hm.
  - intros Hv. destruct (Hden Hv) as [[m Hm] _]. exists m. rewrite Hm.
    destruct (req_route req); try discriminate Hp; reflexivity.
  - intros Hv. rewrite Hv in Hearly. now rewrite Hearly.
Qed.

(** C6 (as amended).  For an authenticated request whose body passes
    the route's checks without an exception: PUT and DELETE on a board
    answer 404 when the board is missing and when it is another user's;
    GET and POST on a board's tasks and PUT and DELETE on a task answer
    404 when the board or task is missing and 403 when it is another
    user's.  A request whose body fails one of the route's checks is
    answered 400, whatever the board or task. *)
Theorem missing_404_foreign_403_or_404 (req : request) (s : db)
    (p : Token.payload) (res : resource) :
  authenticated_as req = Some p -> Token.userId p <> "" ->
  path_resource (req_route req) s = Some res ->
  (body_check req = Passes ->
   match res with
   | NotFound => res_status (fst (handle req s)) = 404
   | OwnedBy owner =>
       owner <> Token.userId p ->
       res_status (fst (handle req s))
       = match req_route req with
         | PUT_board _ | DELETE_board _ => 404
         | _ => 403
         end
   | Orphan => True
   end)
  /\ (body_check req = Fails -> res_status (fst (handle req s)) = 400).
Proof.
  intros Ha Hu Hp. split.
  - intros Hv. destruct res as [|owner|]; [| |exact I].
    + destruct (handle_denied req s p NotFound Ha Hu Hp) as [[m Hm] _];
        [now left|exact Hv|].
      rewrite Hm. destruct (req_route req); try discriminate Hp; reflexivity.
    + intros Ho.
      destruct (handle_denied req s p (OwnedBy owner) Ha Hu Hp)
        as [[m Hm] _]; [right; exists owner; now split|exact Hv|].
      rewrite Hm. destruct (req_route req); try discriminate Hp; reflexivity.
  - intros Hv.
    pose proof (handle_early req s p Ha Hu (path_protected _ _ _ Hp)) as He.
    rewrite Hv in He. destruct He as [m Hm]. now rewrite Hm.
Qed.

End Properties.

(* ------------------------------------------------------------------ *)
(** ** Further behaviour of the handlers *)

Section Behaviour.
Context {R : Runtime}.

Ltac run_store :=
  unfold prisma_user_findUnique_googleId, prisma_user_findUnique_email,
    prisma_user_update_googleId, prisma_user_create,
    prisma_board_findMany, prisma_board_create, prisma_board_findUnique,
    prisma_board_update, prisma_board_delete,
    prisma_task_findMany, prisma_task_create, prisma_task_findUnique,
    prisma_task_update, prisma_task_delete,
    bind, ret, called, get_db, put_users, put_boards, put_tasks, uuid in *;
  cbn [fst snd users boards tasks uuid_counter calls] in *.

Ltac proj_db := cbn [fst snd users boards tasks uuid_counter calls] in *.

(** *** The Authorization header *)

Lemma append_char (cur : string) (c : ascii) (s : string) :
  ((cur ++ String c "") ++ s = cur ++ String c s)%string.
Proof. induction cur as [|a cur IH]; cbn; [reflexivity|now rewrite IH]. Qed.

Lemma append_empty (s : string) : (s ++ "")%string = s.
Proof. induction s as [|a s IH]; cbn; [reflexivity|now rewrite IH]. Qed.

Lemma split_space_no_space (cur s : string) :
  has_space s = false -> split_space cur s = [(cur ++ s)%string].
Proof.
  revert cur. induction s as [|c s IH]; intros cur H; cbn [split_space].
  - now rewrite append_empty.
  - unfold has_space in H. cbn [exists_char] in H.
    apply orb_false_iff in H. destruct H as [Hc Hs]. rewrite Hc.
    rewrite (IH _ Hs). now rewrite append_char.
Qed.

Lemma split_space_first (cur w s : string) :
  has_space w = false ->
  split_space cur (w ++ String " " s) = (cur ++ w)%string :: split_space "" s.
Proof.
  revert cur. induction w as [|c w IH]; intros cur H; cbn [append split_space].
  - cbn. now rewrite append_empty.
  - unfold has_space in H. cbn [exists_char] in H.
    apply orb_false_iff in H. destruct H as [Hc Hw]. rewrite Hc.
    rewrite (IH _ Hw). now rewrite append_char.
Qed.

(** X1.  The token is the second space-separated word of the header,
    whatever the first word is: a header [w ++ " " ++ t] with no space
    in [w] and [t] yields [t]; a header that is not empty and has no
    space yields no token. *)
Theorem bearer_token_second_word (w t : string) :
  has_space w = false -> has_space t = false ->
  bearer_token (Some (w ++ " " ++ t)%string) = Some t
  /\ (w <> "" -> bearer_token (Some w) = None).
Proof.
  intros Hw Ht. unfold bearer_token. split.
  - destruct (w ++ " " ++ t =? "")%string eqn:E.
    { apply String.eqb_eq in E. destruct w; discriminate E. }
    change (" " ++ t)%string with (String " " t).
    rewrite (split_space_first "" w t Hw), (split_space_no_space "" t Ht).
    reflexivity.
  - intros Hne. apply String.eqb_neq in Hne. rewrite Hne.
    now rewrite (split_space_no_space "" w Hw).
Qed.

(** *** Validation comes first *)

(** X2.  An authenticated request whose body fails the route's checks
    (a missing name or title, an invalid status or progress, an empty
    update), without an exception being raised on the way, is answered
    400 with a message and the store is left as it was, call log
    included: no lookup is made. *)
Theorem invalid_body_400_before_lookup (req : request) (s : db)
    (p : Token.payload) :
  authenticated_as req = Some p -> Token.userId p <> "" ->
  protected (req_route req) = true ->
  body_check req = Fails ->
  exists m, handle req s = (message 400 m, s).
Proof.
  intros Ha Hu Hp Hv.
  pose proof (handle_early req s p Ha Hu Hp) as H.
  now rewrite Hv in H.
Qed.

(** *** Sign-up and login *)

Lemma find_app_some {A : Type} (p : A -> bool) (l l' : list A) (x : A) :
  find p l = Some x -> find p (l ++ l') = Some x.
Proof.
  induction l as [|y l IH]; [discriminate|].
  cbn [find app]. destruct (p y); [trivial|exact IH].
Qed.

Lemma find_app_none {A : Type} (p : A -> bool) (l l' : list A) :
  find p l = None -> find p (l ++ l') = find p l'.
Proof.
  induction l as [|y l IH]; [reflexivity|].
  cbn [find app]. destruct (p y); [discriminate|exact IH].
Qed.

Lemma policy_password (pw : string) :
  password_policy (Some pw) = true ->
  (pw =? "")%string = false
  /\ (str_length pw <? 8) = false
  /\ test_upper pw = true /\ test_lower pw = true /\ test_digit pw = true.
Proof.
  unfold password_policy. intros H.
  apply andb_true_iff in H. destruct H as [H Hd].
  apply andb_true_iff in H. destruct H as [H Hl].
  apply andb_true_iff in H. destruct H as [Hlen Hu].
  repeat split; try assumption.
  - destruct pw; [discriminate Hu|reflexivity].
  - apply Z.leb_le in Hlen. apply Z.ltb_ge. exact Hlen.
Qed.

(** X3.  A sign-up for an email that a user already has is answered
    400, whatever the password, and writes no row. *)
Theorem signup_used_email_rejected (req : request) (s : db) (u : User.t) :
  req_route req = POST_auth_signup ->
  find (fun u => (User.email u =? str_of (Body.email (req_body req)))%string)
       (users s) = Some u ->
  res_status (fst (handle req s)) = 400
  /\ rows (snd (handle req s)) = rows s.
Proof.
  intros Hr Hu. unfold handle. rewrite Hr. unfold auth_signup.
  repeat match goal with
    | |- context [if ?c then ret _ else _] =>
        destruct c; [split; reflexivity|]
    end.
  run_store. rewrite Hu. split; reflexivity.
Qed.

(** X4.  A login writes no row, and it is answered 200 only for a user
    found by the email whose stored hash is not empty and matches the
    password; the token then carries that user's id and email. *)
Theorem login_sound (req : request) (s : db) :
  req_route req = POST_auth_login ->
  rows (snd (handle req s)) = rows s
  /\ (res_status (fst (handle req s)) = 200 ->
      exists u password,
        Body.password (req_body req) = Some password
        /\ find (fun u => (User.email u
                            =? str_of (Body.email (req_body req)))%string)
                (users s) = Some u
        /\ User.passwordHash u <> ""
        /\ bcrypt_compare password (User.passwordHash u) = true
        /\ res_json (fst (handle req s))
           = LoginToken "Login successful"
               (jwt_sign (Token.mk (User.id u) (User.email u)))).
Proof.
  intros Hr. unfold handle. rewrite Hr. unfold auth_login.
  destruct (negb (truthy_str (Body.email (req_body req)))
            || negb (truthy_str (Body.password (req_body req)))) eqn:Hf.
  { split; [reflexivity|discriminate]. }
  run_store.
  destruct (find _ (users s)) as [u|]; [|split; [reflexivity|discriminate]].
  destruct (User.passwordHash u =? "")%string eqn:Hh;
    [split; [reflexivity|discriminate]|].
  destruct (bcrypt_compare _ _) eqn:Hc; cbn [negb];
    [|split; [reflexivity|discriminate]].
  split; [reflexivity|]. intros _.
  destruct (Body.password (req_body req)) as [pw|] eqn:Hpw.
  2:{ cbn in Hf. now rewrite orb_true_r in Hf. }
  exists u, pw. cbn [str_of] in Hc. apply String.eqb_neq in Hh.
  repeat split; assumption.
Qed.

(** X5.  After a sign-up that is accepted, a login with the same email
    and password is answered 200 with a token for the new user,
    provided the hash of the password is not empty and [bcrypt.compare]
    accepts the password against its own hash. *)
Theorem signup_then_login (signup login : request) (s : db)
    (e pw : string) :
  req_route signup = POST_auth_signup ->
  req_route login = POST_auth_login ->
  Body.email (req_body signup) = Some e ->
  Body.password (req_body signup) = Some pw ->
  Body.email (req_body login) = Some e ->
  Body.password (req_body login) = Some pw ->
  e <> "" ->
  password_policy (Some pw) = true ->
  find (fun u => (User.email u =? e)%string) (users s) = None ->
  bcrypt_hash pw <> "" ->
  bcrypt_compare pw (bcrypt_hash pw) = true ->
  res_status (fst (handle signup s)) = 201
  /\ fst (handle login (snd (handle signup s)))
     = mkRes 200 (LoginToken "Login successful"
                    (jwt_sign (Token.mk (uuid_of (uuid_counter s)) e))).
Proof.
  intros Hrs Hrl Hes Hps Hel Hpl He Hpol Hfree Hh Hc.
  destruct (policy_password pw Hpol) as (Hne & Hlen & Hup & Hlo & Hdi).
  apply String.eqb_neq in He, Hh.
  unfold handle. rewrite Hrs, Hrl. unfold auth_signup, auth_login.
  rewrite Hes, Hps, Hel, Hpl. cbn [truthy_str str_of].
  rewrite He, Hne, Hlen, Hup, Hlo, Hdi. cbn [negb orb].
  run_store. rewrite Hfree. proj_db. split; [reflexivity|].
  rewrite (find_app_none _ _ _ Hfree). cbn [find User.email].
  rewrite String.eqb_refl. cbn [User.passwordHash User.id User.email].
  rewrite Hh, Hc. reflexivity.
Qed.

(** *** Google sign-in *)

Lemma find_update_first_other {A : Type} (q p : A -> bool) (f : A -> A)
    (l : list A) :
  (forall x, q (f x) = q x) ->
  find q (update_first p f l) = find q l
  \/ exists x, find q l = Some x /\ find q (update_first p f l) = Some (f x).
Proof.
  intros Hq. induction l as [|y l IH]; [now left|].
  cbn [update_first]. destruct (p y); cbn [find].
  - rewrite Hq. destruct (q y); [right; now exists y|now left].
  - destruct (q y); [now left|exact IH].
Qed.

Lemma find_linked (g : string) (p : User.t -> bool) (l : list User.t)
    (u : User.t) :
  find (has_googleId g) l = None ->
  find p l = Some u ->
  find (has_googleId g) (update_first p (linked g) l) = Some (linked g u).
Proof.
  induction l as [|y l IH]; [discriminate|].
  cbn [find update_first].
  destruct (has_googleId g y) eqn:Hy; [discriminate|]. intros Hn.
  destruct (p y); cbn [find].
  - intros [= ->]. unfold has_googleId at 1. cbn [linked User.googleId].
    now rewrite String.eqb_refl.
  - rewrite Hy. now apply IH.
Qed.

Lemma google_verify_twice (profile : GoogleProfile) (s : db) :
  fst (google_verify profile (snd (google_verify profile s)))
  = fst (google_verify profile s)
  /\ rows (snd (google_verify profile (snd (google_verify profile s))))
     = rows (snd (google_verify profile s)).
Proof.
  unfold google_verify. run_store.
  destruct (find (has_googleId _) (users s)) as [u|] eqn:Hg.
  { proj_db. rewrite Hg. split; reflexivity. }
  destruct (truthy_str (profile_email profile)) eqn:He; cbn [negb].
  2:{ proj_db. rewrite Hg. split; reflexivity. }
  proj_db.
  destruct (find (fun u => (User.email u =? _)%string) (users s))
    as [u0|] eqn:Hm; proj_db.
  - fold (linked (profile_id profile)).
    rewrite (find_linked _ _ _ _ Hg Hm).
    rewrite find_update_first, Hm by reflexivity. split; reflexivity.
  - rewrite (find_app_none _ _ _ Hg). cbn [find].
    unfold has_googleId. cbn [User.googleId].
    rewrite String.eqb_refl. split; reflexivity.
Qed.

(** X6.  The Google callback is idempotent: run a second time with the
    same profile it gives the same answer as the first time (the same
    user's token, or the same error) and writes no row. *)
Theorem google_callback_idempotent (req : request) (s : db)
    (profile : GoogleProfile) :
  req_route req = GET_auth_google_callback profile ->
  fst (handle req (snd (handle req s))) = fst (handle req s)
  /\ rows (snd (handle req (snd (handle req s)))) = rows (snd (handle req s)).
Proof.
  intros Hr. unfold handle. rewrite Hr. unfold auth_google_callback, bind.
  destruct (google_verify_twice profile s) as [Hfst Hrows].
  destruct (google_verify profile s) as [u1 s1]. cbn [fst snd] in *.
  assert (Hs1 : forall k : User.t -> response,
             snd (match u1 with
                  | Some user => ret (k user)
                  | None => ret (sendStatus 500)
                  end s1) = s1) by (intros; destruct u1; reflexivity).
  rewrite Hs1.
  destruct (google_verify profile s1) as [u2 s2]. cbn [fst snd] in *.
  subst u2. destruct u1; cbn [ret fst snd]; split; assumption || reflexivity.
Qed.

Lemma auth_login_same (req : request) (s1 s2 : db) :
  match find (fun u => (User.email u
                        =? str_of (Body.email (req_body req)))%string)
             (users s1),
        find (fun u => (User.email u
                        =? str_of (Body.email (req_body req)))%string)
             (users s2)
  with
  | Some u1, Some u2 =>
      User.id u1 = User.id u2 /\ User.email u1 = User.email u2
      /\ User.passwordHash u1 = User.passwordHash u2
  | None, Some u | Some u, None => User.passwordHash u = ""
  | None, None => True
  end ->
  fst (auth_login req s1) = fst (auth_login req s2).
Proof.
  unfold auth_login.
  destruct (negb (truthy_str (Body.email (req_body req))) || _);
    [reflexivity|].
  run_store.
  destruct (find _ (users s1)) as [u1|], (find _ (users s2)) as [u2|].
  - intros (Hi & He & Hh). rewrite Hi, He, Hh.
    destruct (User.passwordHash u2 =? "")%string; [reflexivity|].
    destruct (negb _); reflexivity.
  - intros Hh. rewrite Hh. reflexivity.
  - intros Hh. rewrite Hh. reflexivity.
  - reflexivity.
Qed.

(** X7.  A Google sign-in does not change the answer to any password
    login: linking keeps the id, email and password hash of the user,
    and an account it creates has the empty hash, which the login
    refuses like an unknown email. *)
Theorem google_callback_keeps_logins (google login : request) (s : db)
    (profile : GoogleProfile) :
  req_route google = GET_auth_google_callback profile ->
  req_route login = POST_auth_login ->
  fst (handle login (snd (handle google s))) = fst (handle login s).
Proof.
  intros Hg Hl. unfold handle at 1 3. rewrite Hl.
  apply auth_login_same.
  set (q := fun u => (User.email u =? _)%string).
  unfold handle. rewrite Hg. unfold auth_google_callback, bind.
  assert (Hs : forall (o : option User.t) (s1 : db)
                      (k : User.t -> response),
             snd (match o with
                  | Some user => ret (k user)
                  | None => ret (sendStatus 500)
                  end s1) = s1) by (intros [] ? ?; reflexivity).
  destruct (google_verify profile s) as [o s1] eqn:Hv. rewrite Hs.
  assert (Hs1 : s1 = snd (google_verify profile s)) by now rewrite Hv.
  clear Hv. subst s1. unfold google_verify. run_store.
  destruct (find (has_googleId _) (users s)) as [u|] eqn:Hgid.
  { proj_db. destruct (find q (users s)); auto. }
  destruct (truthy_str (profile_email profile)); cbn [negb].
  2:{ proj_db. destruct (find q (users s)); auto. }
  proj_db.
  destruct (find (fun u => (User.email u =? str_of _)%string) (users s))
    as [u0|] eqn:Hm; proj_db.
  - destruct (find_update_first_other q
                (fun u => (User.email u
                           =? str_of (profile_email profile))%string)
                (linked (profile_id profile)) (users s))
      as [He|(x & Hx & He)]; [reflexivity| |].
    + fold (linked (profile_id profile)). rewrite He.
      destruct (find q (users s)); auto.
    + fold (linked (profile_id profile)). rewrite He, Hx. auto.
  - destruct (find q (users s)) as [x|] eqn:Hx.
    + rewrite (find_app_some _ _ _ _ Hx). auto.
    + rewrite (find_app_none _ _ _ Hx). cbn [find].
      destruct (q _); [reflexivity|exact I].
Qed.

(** *** The unique columns of the user table *)

Lemma find_email_none (e : string) (l : list User.t) :
  find (fun u => (User.email u =? e)%string) l = None ->
  ~ In e (map User.email l).
Proof.
  induction l as [|y l IH]; [intros _ []|].
  cbn [find map]. destruct (User.email y =? e)%string eqn:E; [discriminate|].
  apply String.eqb_neq in E. intros H [Hy|Hin]; [contradiction|].
  now apply IH.
Qed.

Lemma find_googleId_none (g : string) (l : list User.t) :
  find (has_googleId g) l = None -> ~ In g (google_ids l).
Proof.
  induction l as [|y l IH]; [intros _ []|].
  cbn [find google_ids flat_map].
  destruct (has_googleId g y) eqn:E; [discriminate|].
  intros H Hin. apply in_app_or in Hin. destruct Hin as [Hy|Hin].
  - unfold has_googleId in E. destruct (User.googleId y) as [g'|]; [|easy].
    destruct Hy as [->|[]]. now rewrite String.eqb_refl in E.
  - now apply IH.
Qed.

Lemma NoDup_snoc {A : Type} (l : list A) (x : A) :
  NoDup l -> ~ In x l -> NoDup (l ++ [x]).
Proof.
  induction 1 as [|y l Hy Hl IH]; intros Hx; cbn [app].
  - constructor; [intros []|constructor].
  - constructor.
    + intros Hin. apply in_app_or in Hin. destruct Hin as [Hin|[->|[]]].
      * contradiction.
      * apply Hx. now left.
    + apply IH. intros Hin. apply Hx. now right.
Qed.

Lemma emails_update_first (p : User.t -> bool) (g : string)
    (l : list User.t) :
  map User.email (update_first p (linked g) l) = map User.email l.
Proof.
  induction l as [|y l IH]; [reflexivity|].
  cbn [update_first]. destruct (p y); cbn [map]; [reflexivity|now rewrite IH].
Qed.

Lemma google_ids_update_first_in (p : User.t -> bool) (g x : string)
    (l : list User.t) :
  In x (google_ids (update_first p (linked g) l)) ->
  x = g \/ In x (google_ids l).
Proof.
  induction l as [|y l IH]; [intros []|].
  cbn [update_first]. destruct (p y); cbn [google_ids flat_map]; intros Hin.
  - cbn [linked User.googleId app] in Hin. destruct Hin as [<-|Hin];
      [now left|]. right. apply in_or_app. now right.
  - apply in_app_or in Hin. destruct Hin as [Hy|Hin].
    + right. apply in_or_app. now left.
    + destruct (IH Hin) as [->|H]; [now left|].
      right. apply in_or_app. now right.
Qed.

Lemma google_ids_update_first_NoDup (p : User.t -> bool) (g : string)
    (l : list User.t) :
  NoDup (google_ids l) -> ~ In g (google_ids l) ->
  NoDup (google_ids (update_first p (linked g) l)).
Proof.
  induction l as [|y l IH]; [intros; constructor|].
  cbn [update_first google_ids flat_map]. intros Hnd Hg.
  assert (Hl : NoDup (google_ids l)) by (eapply NoDup_app_remove_l; eauto).
  assert (Hgl : ~ In g (google_ids l))
    by (intros H; apply Hg, in_or_app; now right).
  destruct (p y); cbn [google_ids flat_map].
  - cbn [linked User.googleId app]. now constructor.
  - destruct (User.googleId y) as [g'|]; cbn [app] in *; [|now apply IH].
    inversion Hnd as [|? ? Hg' _]; subst.
    constructor; [|now apply IH].
    intros Hin. apply google_ids_update_first_in in Hin.
    destruct Hin as [->|Hin]; [apply Hg; now left|contradiction].
Qed.

Lemma handle_users_unchanged (req : request) (s : db) :
  match req_route req with
  | POST_auth_signup | GET_auth_google_callback _ => True
  | _ => users (snd (handle req s)) = users s
  end.
Proof.
  unfold handle.
  destruct (req_route req); try exact I; unfold authenticateToken;
    try (destruct (bearer_token (authorization req)) as [token|];
         [|reflexivity];
         destruct (jwt_verify token) as [e|p]; [reflexivity|]).
  - reflexivity.
  - unfold auth_login. run_store.
    repeat match goal with
      | |- context [match ?x with _ => _ end] => destruct x
      end; reflexivity.
  - unfold get_boards. run_store.
    destruct (_ =? _)%string; reflexivity.
  - unfold post_boards. run_store.
    repeat match goal with
      | |- context [if ?x then _ else _] => destruct x
      end; reflexivity.
  - unfold put_board. run_store.
    repeat match goal with
      | |- context [match ?x with _ => _ end] => destruct x
      end; reflexivity.
  - unfold delete_board. run_store.
    repeat match goal with
      | |- context [match ?x with _ => _ end] => destruct x
      end; reflexivity.
  - unfold get_board_tasks. run_store.
    repeat match goal with
      | |- context [match ?x with _ => _ end] => destruct x
      end; reflexivity.
  - unfold post_board_tasks. run_store.
    repeat (match goal with
      | |- users (snd (match match ?x with _ => _ end _ with _ => _ end))
           = _ => destruct x
      | |- users (snd (match ?x with _ => _ end _)) = _ => destruct x
      | |- users (snd (match ?x with _ => _ end)) = _ => destruct x
      end; proj_db); reflexivity.
  - unfold put_task. run_store.
    repeat (match goal with
      | |- users (snd (match match ?x with _ => _ end _ with _ => _ end))
           = _ => destruct x
      | |- users (snd (match ?x with _ => _ end _)) = _ => destruct x
      | |- users (snd (match ?x with _ => _ end)) = _ => destruct x
      end; proj_db); reflexivity.
  - unfold delete_task. run_store.
    repeat match goal with
      | |- users (snd (match ?x with _ => _ end _)) = _ => destruct x
      | |- users (snd (match ?x with _ => _ end)) = _ => destruct x
      end; reflexivity.
Qed.

Lemma handle_unique_users (req : request) (s : db) :
  unique_users s -> unique_users (snd (handle req s)).
Proof.
  intros [He Hg]. unfold unique_users.
  pose proof (handle_users_unchanged req s) as Hu.
  destruct (req_route req) eqn:Hr; try (rewrite Hu; now split).
  - (* sign-up *)
    clear Hu. unfold handle. rewrite Hr. unfold auth_signup.
    repeat match goal with
      | |- context [if ?c then ret _ else _] =>
          destruct c; [now split|]
      end.
    run_store.
    destruct (find _ (users s)) as [u|] eqn:Hf; [now split|]. proj_db.
    split.
    + rewrite map_app. cbn [map User.email].
      apply NoDup_snoc; [exact He|now apply find_email_none].
    + unfold google_ids. rewrite flat_map_app. cbn [flat_map User.googleId].
      now rewrite !app_nil_r.
  - (* Google sign-in *)
    clear Hu. unfold handle. rewrite Hr.
    unfold auth_google_callback, bind.
    assert (Hs : forall (o : option User.t) (s1 : db)
                        (k : User.t -> response),
               snd (match o with
                    | Some user => ret (k user)
                    | None => ret (sendStatus 500)
                    end s1) = s1) by (intros [] ? ?; reflexivity).
    destruct (google_verify profile s) as [o s1] eqn:Hv. rewrite Hs.
    assert (Hs1 : s1 = snd (google_verify profile s)) by now rewrite Hv.
    clear Hv. subst s1. unfold google_verify. run_store.
    destruct (find (has_googleId _) (users s)) as [u|] eqn:Hgid;
      [now split|].
    destruct (truthy_str (profile_email profile)); cbn [negb]; [|now split].
    proj_db.
    destruct (find (fun u => (User.email u =? _)%string) (users s))
      as [u0|] eqn:Hm; proj_db.
    + fold (linked (profile_id profile)). split.
      * now rewrite emails_update_first.
      * apply google_ids_update_first_NoDup;
          [exact Hg|now apply find_googleId_none].
    + split.
      * rewrite map_app. cbn [map User.email].
        apply NoDup_snoc; [exact He|now apply find_email_none].
      * unfold google_ids. rewrite flat_map_app.
        cbn [flat_map User.googleId]. rewrite app_nil_r.
        apply NoDup_snoc; [exact Hg|now apply find_googleId_none].
Qed.

(** X8.  In every state the server reaches, no two users have the same
    email and no two have the same Google id: each handler that writes
    a user looks the value up first. *)
Theorem reachable_unique_users (s : db) : reachable s -> unique_users s.
Proof.
  induction 1 as [|s req _ IH].
  - split; constructor.
  - now apply handle_unique_users.
Qed.

(** *** Every task has its board *)

Lemma existsb_update_first {A : Type} (q p : A -> bool) (f : A -> A)
    (l : list A) :
  (forall x, q (f x) = q x) ->
  existsb q (update_first p f l) = existsb q l.
Proof.
  intros Hq. induction l as [|y l IH]; [reflexivity|].
  cbn [update_first]. destruct (p y); cbn [existsb].
  - now rewrite Hq.
  - now rewrite IH.
Qed.

Lemma existsb_filter_board (i j : string) (l : list Board.t) :
  i <> j ->
  existsb (fun b => (Board.id b =? i)%string)
          (filter (fun b => negb (Board.id b =? j)%string) l)
  = existsb (fun b => (Board.id b =? i)%string) l.
Proof.
  intros Hij. induction l as [|y l IH]; [reflexivity|].
  cbn [filter existsb].
  destruct (Board.id y =? j)%string eqn:Ej; cbn [negb existsb].
  - apply String.eqb_eq in Ej.
    assert (E : (Board.id y =? i)%string = false)
      by (apply String.eqb_neq; congruence).
    now rewrite E.
  - now rewrite IH.
Qed.

Lemma find_existsb {A : Type} (p : A -> bool) (l : list A) :
  existsb p l = true -> find p l <> None.
Proof.
  induction l as [|y l IH]; [discriminate|].
  cbn [existsb find]. destruct (p y); [discriminate|exact IH].
Qed.

Lemma existsb_find {A : Type} (p : A -> bool) (l : list A) (x : A) :
  find p l = Some x -> existsb p l = true.
Proof.
  induction l as [|y l IH]; [discriminate|].
  cbn [existsb find]. destruct (p y); [reflexivity|exact IH].
Qed.

Ltac same_rows :=
  unfold tasks_have_boards, has_board in *; proj_db; assumption.

Ltac each_branch :=
  repeat (match goal with
    | |- tasks_have_boards
           (snd (match match ?x with _ => _ end _ with _ => _ end)) =>
        destruct x eqn:?
    | |- tasks_have_boards (snd (match ?x with _ => _ end _)) =>
        destruct x eqn:?
    | |- tasks_have_boards (snd (match ?x with _ => _ end)) =>
        destruct x eqn:?
    end; proj_db).

Lemma handle_tasks_have_boards (req : request) (s : db) :
  tasks_have_boards s -> tasks_have_boards (snd (handle req s)).
Proof.
  intros H. unfold handle.
  destruct (req_route req); unfold authenticateToken;
    try (destruct (bearer_token (authorization req)) as [token|];
         [|same_rows];
         destruct (jwt_verify token) as [e|p]; [same_rows|]).
  - same_rows.
  - unfold auth_signup. run_store. each_branch; same_rows.
  - unfold auth_login. run_store. each_branch; same_rows.
  - unfold auth_google_callback, bind.
    pose proof (google_verify_rows profile s) as [Hb Ht].
    destruct (google_verify profile s) as [[u|] d]; cbn [snd ret] in *;
      unfold tasks_have_boards, has_board in *; now rewrite Hb, Ht.
  - unfold get_boards. run_store. each_branch; same_rows.
  - unfold post_boards. run_store. each_branch; try same_rows.
    unfold tasks_have_boards, has_board in *. proj_db.
    eapply Forall_impl; [|exact H]. cbn beta. intros t' Ht'.
    rewrite existsb_app, Ht'. reflexivity.
  - unfold put_board. run_store. each_branch; try same_rows.
    unfold tasks_have_boards, has_board in *. proj_db.
    eapply Forall_impl; [|exact H]. cbn beta. intros t' Ht'.
    now rewrite existsb_update_first.
  - unfold delete_board. run_store. each_branch; try same_rows.
    unfold tasks_have_boards, has_board in *. proj_db.
    apply Forall_forall. intros t' Ht'. apply filter_In in Ht'.
    destruct Ht' as [Hin Hne].
    apply negb_true_iff, String.eqb_neq in Hne.
    rewrite existsb_filter_board by exact Hne.
    eapply Forall_forall in H; eauto.
  - unfold get_board_tasks. run_store. each_branch; same_rows.
  - unfold post_board_tasks. run_store. each_branch; try same_rows.
    unfold tasks_have_boards, has_board in *. proj_db.
    apply Forall_app. split; [exact H|]. constructor; [|constructor].
    cbn [Task.boardId]. eapply existsb_find. eassumption.
  - unfold put_task. run_store. each_branch; try same_rows.
    all: unfold tasks_have_boards, has_board in *; proj_db.
    all: apply update_first_Forall; [exact H|]; intros x _ Hx; exact Hx.
  - unfold delete_task. run_store. each_branch; try same_rows.
    unfold tasks_have_boards, has_board in *. proj_db.
    now apply filter_keeps.
Qed.

Lemma reachable_tasks_have_boards (s : db) :
  reachable s -> tasks_have_boards s.
Proof.
  induction 1 as [|s req _ IH]; [constructor|].
  now apply handle_tasks_have_boards.
Qed.

Lemma task_board_found (s : db) (i : string) (t : Task.t) :
  tasks_have_boards s ->
  find (fun t => (Task.id t =? i)%string) (tasks s) = Some t ->
  option_map Board.userId
    (find (fun b => (Board.id b =? Task.boardId t)%string) (boards s))
  <> None.
Proof.
  intros H Ht. apply find_some in Ht. destruct Ht as [Hin _].
  unfold tasks_have_boards, has_board in H.
  eapply Forall_forall in H; [|exact Hin].
  apply find_existsb in H. destruct (find _ (boards s)); [discriminate|easy].
Qed.

(** X9.  In every state the server reaches, a task is never looked up
    without its board: wherever [prisma.task.findUnique] with the
    board included finds a task, the board it belongs to is stored and
    its owner is what the lookup returns, so that [task.board.userId]
    in the update and deletion handlers is defined. *)
Theorem stored_task_has_its_board (s : db) (i : string) (t : Task.t)
    (o : option string) :
  reachable s ->
  fst (prisma_task_findUnique i s) = Some (t, o) ->
  exists b, In b (boards s)
            /\ Board.id b = Task.boardId t
            /\ o = Some (Board.userId b).
Proof.
  intros Hreach. pose proof (reachable_tasks_have_boards s Hreach) as Hinv.
  run_store.
  destruct (find _ (tasks s)) as [t0|] eqn:Ht; [|discriminate].
  intros E. injection E as <- <-.
  pose proof (task_board_found s i t0 Hinv Ht) as Hb.
  destruct (find _ (boards s)) as [b|] eqn:Hf; [|now elim Hb].
  apply find_some in Hf. destruct Hf as [Hin Hid].
  apply String.eqb_eq in Hid.
  exists b. repeat split; assumption.
Qed.

(** *** Numbers as progress *)

Ltac next_digit acc :=
  match goal with
  | |- read_digits (Some (10 * Z.of_N acc + ?k)) _ = _ =>
      let k' := eval vm_compute in (Z.to_N k) in
      replace (10 * Z.of_N acc + k) with (Z.of_N (10 * acc + k'))
        by (vm_compute (code _ - 48); lia)
  end.

Lemma read_digits_numeral (d : Decimal.uint) (acc : N) :
  read_digits (Some (Z.of_N acc)) (NilEmpty.string_of_uint d)
  = Some (Z.of_N (DecimalPos.Unsigned.of_lu (Decimal.rev d)
                  + acc * 10 ^ DecimalPos.Unsigned.usize d)).
Proof.
  revert acc.
  induction d; intros acc; cbn [NilEmpty.string_of_uint read_digits];
    [cbn; f_equal; lia | ..];
    (replace (in_range 48 57 _) with true by reflexivity);
    unfold Decimal.rev; cbn [Decimal.revapp];
    rewrite DecimalPos.Unsigned.of_lu_revapp;
    cbn [DecimalPos.Unsigned.usize]; rewrite N.pow_succ_r';
    cbn [DecimalPos.Unsigned.of_lu];
    next_digit acc; rewrite IHd; f_equal; f_equal; unfold Decimal.rev; lia.
Qed.

Lemma parseInt_string_digits (d : Decimal.uint) :
  d <> Decimal.Nil ->
  parseInt_string (NilEmpty.string_of_uint d)
  = Some (Z.of_N (Pos.of_uint d))
  /\ parseInt_string (String "-" (NilEmpty.string_of_uint d))
     = Some (- Z.of_N (Pos.of_uint d)).
Proof.
  intros Hd.
  assert (H : read_digits None (NilEmpty.string_of_uint d)
              = Some (Z.of_N (Pos.of_uint d))).
  { rewrite DecimalPos.Unsigned.of_uint_alt.
    replace (read_digits None (NilEmpty.string_of_uint d))
      with (read_digits (Some (Z.of_N 0)) (NilEmpty.string_of_uint d))
      by (destruct d; [contradiction|reflexivity ..]).
    rewrite read_digits_numeral. f_equal. f_equal. lia. }
  split.
  - rewrite <- H. destruct d; [contradiction|reflexivity ..].
  - unfold parseInt_string. cbn [trim_start].
    replace (is_white_space "-") with false by reflexivity.
    rewrite H. reflexivity.
Qed.

Lemma parseInt_string_numeral (z : Z) :
  parseInt_string (NilZero.string_of_int (Z.to_int z)) = Some z.
Proof.
  destruct z as [|p|p]; [reflexivity| |];
    pose proof (DecimalPos.Unsigned.to_uint_nonnil p) as Hn;
    destruct (parseInt_string_digits (Pos.to_uint p) Hn) as [Hpos Hneg];
    unfold Z.to_int; cbn [NilZero.string_of_int];
    unfold NilZero.string_of_uint;
    destruct (Pos.to_uint p) eqn:E; try contradiction;
    rewrite <- E in *;
    first [rewrite Hpos | rewrite Hneg];
    rewrite DecimalPos.Unsigned.of_to; reflexivity.
Qed.

Lemma parseInt_integer (z : Z) :
  Z.abs z < 10 ^ 21 -> parseInt (JNum (inject_Z z)) = Some (Some z).
Proof.
  intros Hz. unfold parseInt. cbn [to_String option_map].
  rewrite Number_toString_integer by exact Hz.
  now rewrite parseInt_string_numeral.
Qed.

(** X10.  With status "inprogress", a progress given as the number [n]
    of 0..100 and date fields that are absent, falsy or valid dates,
    [n] is what is stored, by a creation (201) and by an update (200)
    alike. *)
Theorem numeric_progress_is_stored (n : Z) :
  0 <= n <= 100 ->
  (forall (req : request) (s : db) (boardId : string) (p : Token.payload),
      req_route req = POST_board_tasks boardId ->
      authenticated_as req = Some p -> Token.userId p <> "" ->
      board_resource s boardId = OwnedBy (Token.userId p) ->
      truthy_str (Body.title (req_body req)) = true ->
      Body.status (req_body req) = JStr "inprogress" ->
      Body.progress (req_body req) = JNum (inject_Z n) ->
      dates_fine (req_body req) = true ->
      exists t,
        fst (handle req s) = mkRes 201 (TaskJson t)
        /\ In t (tasks (snd (handle req s)))
        /\ Task.progress t = n)
  /\ (forall (req : request) (s : db) (taskId : string) (p : Token.payload)
             (t : Task.t),
        req_route req = PUT_task taskId ->
        authenticated_as req = Some p -> Token.userId p <> "" ->
        stored_task s taskId = Some t ->
        task_resource s taskId = OwnedBy (Token.userId p) ->
        Body.status (req_body req) = JStr "inprogress" ->
        Body.progress (req_body req) = JNum (inject_Z n) ->
        dates_fine (req_body req) = true ->
        exists t',
          fst (handle req s) = mkRes 200 (TaskJson t')
          /\ stored_task (snd (handle req s)) taskId = Some t'
          /\ Task.progress t' = n).
Proof.
  intros Hn.
  assert (Hp : parseInt (JNum (inject_Z n)) = Some (Some n))
    by (apply parseInt_integer; lia).
  assert (Hv : forall d, valid_or (Some n) d = n).
  { intros d. unfold valid_or.
    destruct (n >=? 0) eqn:H0, (n <=? 100) eqn:H1; cbn [andb];
      try reflexivity; lia. }
  assert (Hc : create_progress (JStr "inprogress") (JNum (inject_Z n))
               = Some n).
  { unfold create_progress.
    cbn [strict_eq_str String.eqb Ascii.eqb Bool.eqb nullish_or].
    now rewrite Hp, Hv. }
  split.
  - intros req s boardId p Hr Ha Hu Ho Htitle Hs Hpr Hdates.
    destruct (post_board_tasks_creates req s boardId p) as [Hres Hst];
      try assumption.
    + unfold passes_validation, body_check. rewrite Hr, Htitle, Hs, Hpr.
      cbn [or_else truthy String.eqb negb]. rewrite Hc. reflexivity.
    + eexists. split; [exact Hres|]. split.
      * rewrite Hst. apply in_or_app. right. now left.
      * unfold created_task. rewrite Hs, Hpr.
        cbn [or_else truthy String.eqb negb Task.progress].
        now rewrite Hc.
  - intros req s taskId p t Hr Ha Hu Ht Ho Hs Hpr Hdates.
    destruct (put_task_writes req s taskId p t (Some "inprogress") (Some n))
      as [Hres Hst]; try assumption.
    + rewrite Hs, Hpr. unfold status_progress_keys.
      cbn [is_undefined negb includes validStatuses existsb String.eqb
           Ascii.eqb Bool.eqb orb andb strict_eq_str as_string].
      now rewrite Hp, Hv.
    + apply no_keys_status.
    + reflexivity.
    + eexists. split; [exact Hres|]. split; [exact Hst|]. reflexivity.
Qed.

(** *** Tasks *)

Lemma handle_boards_unchanged (req : request) (s : db) :
  match req_route req with
  | POST_boards | PUT_board _ | DELETE_board _ => True
  | _ => boards (snd (handle req s)) = boards s
  end.
Proof.
  unfold handle.
  destruct (req_route req); try exact I; unfold authenticateToken;
    try (destruct (bearer_token (authorization req)) as [token|];
         [|reflexivity];
         destruct (jwt_verify token) as [e|p]; [reflexivity|]).
  - reflexivity.
  - unfold auth_signup. run_store.
    repeat match goal with
      | |- context [match ?x with _ => _ end] => destruct x
      end; reflexivity.
  - unfold auth_login. run_store.
    repeat match goal with
      | |- context [match ?x with _ => _ end] => destruct x
      end; reflexivity.
  - unfold auth_google_callback, bind.
    pose proof (google_verify_rows profile s) as [Hb _].
    destruct (google_verify profile s) as [[u|] d]; exact Hb.
  - unfold get_boards. run_store.
    destruct (_ =? _)%string; reflexivity.
  - unfold get_board_tasks. run_store.
    repeat match goal with
      | |- context [match ?x with _ => _ end] => destruct x
      end; reflexivity.
  - unfold post_board_tasks. run_store.
    repeat (match goal with
      | |- boards (snd (match match ?x with _ => _ end _ with _ => _ end))
           = _ => destruct x
      | |- boards (snd (match ?x with _ => _ end _)) = _ => destruct x
      | |- boards (snd (match ?x with _ => _ end)) = _ => destruct x
      end; proj_db); reflexivity.
  - unfold put_task. run_store.
    repeat (match goal with
      | |- boards (snd (match match ?x with _ => _ end _ with _ => _ end))
           = _ => destruct x
      | |- boards (snd (match ?x with _ => _ end _)) = _ => destruct x
      | |- boards (snd (match ?x with _ => _ end)) = _ => destruct x
      end; proj_db); reflexivity.
  - unfold delete_task. run_store.
    repeat (match goal with
      | |- boards (snd (match match ?x with _ => _ end _ with _ => _ end))
           = _ => destruct x
      | |- boards (snd (match ?x with _ => _ end _)) = _ => destruct x
      | |- boards (snd (match ?x with _ => _ end)) = _ => destruct x
      end; proj_db); reflexivity.
Qed.

Lemma find_filter_task (i j : string) (l : list Task.t) :
  find (fun t => (Task.id t =? i)%string)
       (filter (fun t => negb (Task.id t =? j)%string) l)
  = if (i =? j)%string then None
    else find (fun t => (Task.id t =? i)%string) l.
Proof.
  induction l as [|y l IH]; [now destruct (i =? j)%string|].
  cbn [filter find].
  destruct (Task.id y =? j)%string eqn:Ej; cbn [negb find].
  - rewrite IH. destruct (i =? j)%string eqn:Eij; [reflexivity|].
    apply String.eqb_eq in Ej. apply String.eqb_neq in Eij.
    assert (E : (Task.id y =? i)%string = false)
      by (apply String.eqb_neq; congruence).
    now rewrite E.
  - rewrite IH. destruct (i =? j)%string eqn:Eij; [|reflexivity].
    apply String.eqb_eq in Eij. subst j. now rewrite Ej.
Qed.

(** X11.  A task creation by the board's owner, with a body that
    passes the checks and date fields that are absent, falsy or valid
    dates, followed by that owner's listing of the board: the list is
    the one from before the creation with the created task at its
    end. *)
Theorem create_task_then_list (create list : request) (s : db)
    (boardId : string) (p : Token.payload) :
  req_route create = POST_board_tasks boardId ->
  req_route list = GET_board_tasks boardId ->
  authenticated_as create = Some p ->
  authenticated_as list = Some p ->
  Token.userId p <> "" ->
  board_resource s boardId = OwnedBy (Token.userId p) ->
  passes_validation create = true ->
  dates_fine (req_body create) = true ->
  exists l t,
    fst (handle list s) = mkRes 200 (TaskList l)
    /\ fst (handle create s) = mkRes 201 (TaskJson t)
    /\ fst (handle list (snd (handle create s)))
       = mkRes 200 (TaskList (l ++ [t])).
Proof.
  intros Hc Hl Hac Hal Hu Ho Hv Hdates.
  destruct (post_board_tasks_creates create s boardId p Hc Hac Hu Ho Hv
              Hdates) as [Hres Hst].
  pose proof (handle_boards_unchanged create s) as Hb. rewrite Hc in Hb.
  apply String.eqb_neq in Hu.
  do 2 eexists. split; [|split; [exact Hres|]].
  - unfold handle. rewrite Hl, (authenticateToken_next _ _ _ _ Hal).
    unfold get_board_tasks. rewrite Hu. run_store.
    unfold board_resource in Ho.
    destruct (find _ (boards s)) as [b|] eqn:Hfb; [|discriminate].
    injection Ho as Ho. rewrite Ho, String.eqb_refl. reflexivity.
  - unfold handle at 1. rewrite Hl, (authenticateToken_next _ _ _ _ Hal).
    unfold get_board_tasks. rewrite Hu. run_store.
    rewrite Hb, Hst. unfold board_resource in Ho.
    destruct (find _ (boards s)) as [b|] eqn:Hfb; [|discriminate].
    injection Ho as Ho. rewrite Ho, String.eqb_refl. cbn [negb]. proj_db.
    rewrite filter_app. cbn [filter created_task Task.boardId].
    now rewrite String.eqb_refl.
Qed.

(** X12.  A task deletion by the owner is answered 204; afterwards no
    task has the id, every other id finds the task it found before,
    and the boards are as before. *)
Theorem delete_task_removes_it (req : request) (s : db) (taskId : string)
    (p : Token.payload) :
  req_route req = DELETE_task taskId ->
  authenticated_as req = Some p -> Token.userId p <> "" ->
  task_resource s taskId = OwnedBy (Token.userId p) ->
  fst (handle req s) = sendStatus 204
  /\ stored_task (snd (handle req s)) taskId = None
  /\ (forall j, j <> taskId ->
        stored_task (snd (handle req s)) j = stored_task s j)
  /\ boards (snd (handle req s)) = boards s.
Proof.
  intros Hr Ha Hu Ho. apply String.eqb_neq in Hu.
  unfold handle. rewrite Hr, (authenticateToken_next _ _ _ _ Ha).
  unfold delete_task. rewrite Hu. run_store.
  unfold task_resource, board_resource in Ho.
  destruct (find _ (tasks s)) as [t|]; [|discriminate].
  destruct (find _ (boards s)) as [b|]; [|discriminate].
  injection Ho as Ho. cbn [option_map]. rewrite Ho, String.eqb_refl.
  cbn [negb]. proj_db. unfold stored_task. proj_db.
  split; [reflexivity|]. split; [|split; [|reflexivity]].
  - now rewrite find_filter_task, String.eqb_refl.
  - intros j Hj. rewrite find_filter_task.
    apply String.eqb_neq in Hj. now rewrite Hj.
Qed.

(** X13.  While a task is "inprogress", an update by its owner with no
    status, a progress that [parseInt] reads as [n] in 0..100 and date
    fields that are absent, falsy or valid dates is answered 200 and
    stores [n]; the status stays "inprogress". *)
Theorem progress_is_adjustable_in_progress (req : request) (s : db)
    (taskId : string) (p : Token.payload) (t : Task.t) (n : Z) :
  req_route req = PUT_task taskId ->
  authenticated_as req = Some p -> Token.userId p <> "" ->
  stored_task s taskId = Some t ->
  task_resource s taskId = OwnedBy (Token.userId p) ->
  Task.status t = "inprogress" ->
  Body.status (req_body req) = JUndefined ->
  parseInt (Body.progress (req_body req)) = Some (Some n) ->
  0 <= n <= 100 ->
  dates_fine (req_body req) = true ->
  exists t',
    fst (handle req s) = mkRes 200 (TaskJson t')
    /\ stored_task (snd (handle req s)) taskId = Some t'
    /\ Task.progress t' = n
    /\ Task.status t' = "inprogress".
Proof.
  intros Hr Ha Hu Ht Ho Hs Hst Hp Hn Hdates.
  destruct (put_task_writes req s taskId p t None (Some n))
    as [Hres Hstored]; try assumption.
  - unfold status_progress_keys.
    rewrite Hst, (parseInt_defined _ _ Hp), Hp by discriminate.
    cbn [is_undefined negb].
    destruct (n <? 0) eqn:H0; [lia|].
    destruct (n >? 100) eqn:H1; [lia|]. reflexivity.
  - unfold UpdateData.no_keys, updateData_of.
    cbn [UpdateData.progress UpdateData.is_some].
    now rewrite !orb_true_r.
  - rewrite Hs. reflexivity.
  - eexists. split; [exact Hres|]. split; [exact Hstored|].
    split; [reflexivity|]. cbn. exact Hs.
Qed.

(** X14.  A task created with a status that is absent or falsy, and
    with date fields that are absent, falsy or valid dates, is a "todo"
    task with progress 0, whatever progress the body carries. *)
Theorem create_without_status_is_todo (req : request) (s : db)
    (boardId : string) (p : Token.payload) :
  req_route req = POST_board_tasks boardId ->
  authenticated_as req = Some p -> Token.userId p <> "" ->
  board_resource s boardId = OwnedBy (Token.userId p) ->
  truthy_str (Body.title (req_body req)) = true ->
  truthy (Body.status (req_body req)) = false ->
  dates_fine (req_body req) = true ->
  exists t,
    fst (handle req s) = mkRes 201 (TaskJson t)
    /\ In t (tasks (snd (handle req s)))
    /\ Task.status t = "todo" /\ Task.progress t = 0
    /\ Task.title t = str_of (Body.title (req_body req))
    /\ Task.boardId t = boardId.
Proof.
  intros Hr Ha Hu Ho Htitle Hs Hdates.
  destruct (post_board_tasks_creates req s boardId p) as [Hres Hst];
    try assumption.
  - unfold passes_validation, body_check, or_else.
    rewrite Hr, Htitle, Hs. reflexivity.
  - eexists. split; [exact Hres|]. split.
    + rewrite Hst. apply in_or_app. right. now left.
    + unfold created_task, or_else. rewrite Hs. repeat split.
Qed.

(** *** Boards *)

Lemma find_filter_board (i j : string) (l : list Board.t) :
  find (fun b => (Board.id b =? i)%string)
       (filter (fun b => negb (Board.id b =? j)%string) l)
  = if (i =? j)%string then None
    else find (fun b => (Board.id b =? i)%string) l.
Proof.
  induction l as [|y l IH]; [now destruct (i =? j)%string|].
  cbn [filter find].
  destruct (Board.id y =? j)%string eqn:Ej; cbn [negb find].
  - rewrite IH. destruct (i =? j)%string eqn:Eij; [reflexivity|].
    apply String.eqb_eq in Ej. apply String.eqb_neq in Eij.
    assert (E : (Board.id y =? i)%string = false)
      by (apply String.eqb_neq; congruence).
    now rewrite E.
  - rewrite IH. destruct (i =? j)%string eqn:Eij; [|reflexivity].
    apply String.eqb_eq in Eij. subst j. now rewrite Ej.
Qed.

Lemma filter_other_board (i j : string) (l : list Task.t) :
  j <> i ->
  filter (fun t => (Task.boardId t =? j)%string)
         (filter (fun t => negb (Task.boardId t =? i)%string) l)
  = filter (fun t => (Task.boardId t =? j)%string) l.
Proof.
  intros Hji. induction l as [|y l IH]; [reflexivity|].
  cbn [filter].
  destruct (Task.boardId y =? i)%string eqn:Ei; cbn [negb filter].
  - apply String.eqb_eq in Ei.
    assert (E : (Task.boardId y =? j)%string = false)
      by (apply String.eqb_neq; congruence).
    now rewrite E.
  - now rewrite IH.
Qed.

(** X15.  A board deletion by the owner is answered 204 and removes
    that board and nothing else: every other id finds the board it
    found before, and the tasks of every other board are as before. *)
Theorem delete_board_removes_only_it (req : request) (s : db)
    (boardId : string) (p : Token.payload) :
  req_route req = DELETE_board boardId ->
  authenticated_as req = Some p -> Token.userId p <> "" ->
  board_resource s boardId = OwnedBy (Token.userId p) ->
  fst (handle req s) = sendStatus 204
  /\ board_resource (snd (handle req s)) boardId = NotFound
  /\ (forall j, j <> boardId ->
        board_resource (snd (handle req s)) j = board_resource s j
        /\ filter (fun t => (Task.boardId t =? j)%string)
                  (tasks (snd (handle req s)))
           = filter (fun t => (Task.boardId t =? j)%string) (tasks s)).
Proof.
  intros Hr Ha Hu Ho. apply String.eqb_neq in Hu.
  unfold handle. rewrite Hr, (authenticateToken_next _ _ _ _ Ha).
  unfold delete_board. rewrite Hu. run_store.
  unfold board_resource in *.
  destruct (find _ (boards s)) as [b|] eqn:Hb; [|discriminate].
  injection Ho as Ho. rewrite Ho, String.eqb_refl. cbn [negb]. proj_db.
  split; [reflexivity|]. split.
  - now rewrite find_filter_board, String.eqb_refl.
  - intros j Hj. split.
    + rewrite find_filter_board. apply String.eqb_neq in Hj. now rewrite Hj.
    + now apply filter_other_board.
Qed.

(** X16.  No request moves a board to another user: if an id names a
    board before and after a request, the owner is the same. *)
Theorem board_owner_never_changes (req : request) (s : db)
    (i owner owner' : string) :
  board_resource s i = OwnedBy owner ->
  board_resource (snd (handle req s)) i = OwnedBy owner' ->
  owner' = owner.
Proof.
  intros Ho. pose proof (handle_boards_unchanged req s) as Hb.
  unfold board_resource in *.
  destruct (find _ (boards s)) as [b|] eqn:Hf; [|discriminate].
  injection Ho as <-.
  destruct (req_route req) eqn:Hr;
    try (rewrite Hb, Hf; now intros [= <-]); clear Hb;
    unfold handle; rewrite Hr; unfold authenticateToken;
    (destruct (bearer_token (authorization req)) as [token|];
     [|cbn [ret snd]; rewrite Hf; now intros [= <-]]);
    (destruct (jwt_verify token) as [e|p];
     [cbn [ret snd]; rewrite Hf; now intros [= <-]|]).
  - unfold post_boards. run_store.
    repeat match goal with
      | |- context [if ?x then _ else _] => destruct x
      end; proj_db; rewrite ?(find_app_some _ _ _ _ Hf), ?Hf;
      now intros [= <-].
  - unfold put_board. run_store.
    repeat match goal with
      | |- context [match ?x with _ => _ end _] => destruct x
      end; proj_db; try (rewrite Hf; now intros [= <-]).
    destruct (find_update_first_other
                (fun b => (Board.id b =? i)%string)
                (fun b => (Board.id b =? boardId)%string)
                (fun b => Board.mk (Board.id b)
                            (str_of (Body.name (req_body req)))
                            (Board.userId b))
                (boards s)) as [E|(x & Hx & E)]; [reflexivity| |].
    + rewrite E, Hf. now intros [= <-].
    + rewrite E. rewrite Hf in Hx. injection Hx as <-.
      now intros [= <-].
  - unfold delete_board. run_store.
    repeat match goal with
      | |- context [match ?x with _ => _ end _] => destruct x
      end; proj_db; try (rewrite Hf; now intros [= <-]).
    rewrite find_filter_board.
    destruct (i =? boardId)%string; [discriminate|].
    rewrite Hf. now intros [= <-].
Qed.

(** X17.  A renaming by the owner is answered 200; the id then finds
    the board with the new name and the same owner, and the tasks are
    as before. *)
Theorem rename_board_is_stored (req : request) (s : db) (boardId : string)
    (p : Token.payload) (b : Board.t) (n : string) :
  req_route req = PUT_board boardId ->
  authenticated_as req = Some p -> Token.userId p <> "" ->
  Body.name (req_body req) = Some n -> n <> "" ->
  find (fun b => (Board.id b =? boardId)%string) (boards s) = Some b ->
  Board.userId b = Token.userId p ->
  fst (handle req s) = message 200 "Board updated successfully."
  /\ find (fun b => (Board.id b =? boardId)%string)
          (boards (snd (handle req s)))
     = Some (Board.mk (Board.id b) n (Board.userId b))
  /\ tasks (snd (handle req s)) = tasks s.
Proof.
  intros Hr Ha Hu Hn Hne Hb Ho. apply String.eqb_neq in Hu, Hne.
  unfold handle. rewrite Hr, (authenticateToken_next _ _ _ _ Ha).
  unfold put_board. rewrite Hu, Hn. cbn [truthy_str str_of].
  rewrite Hne. cbn [negb]. run_store.
  rewrite Hb, Ho, String.eqb_refl. cbn [negb]. proj_db.
  split; [reflexivity|]. split; [|reflexivity].
  rewrite find_update_first by reflexivity. rewrite Hb.
  cbn [option_map]. now rewrite Ho.
Qed.

(** X18.  A board creation by user [p] followed by a board listing by
    user [q]: the list is [q]'s list from before, with the new board
    at its end when [q] is [p] and unchanged otherwise. *)
Theorem create_board_then_list (create list : request) (s : db)
    (p q : Token.payload) (n : string) :
  req_route create = POST_boards ->
  req_route list = GET_boards ->
  authenticated_as create = Some p -> Token.userId p <> "" ->
  authenticated_as list = Some q -> Token.userId q <> "" ->
  Body.name (req_body create) = Some n -> n <> "" ->
  exists l,
    fst (handle list s) = mkRes 200 (BoardList l)
    /\ Forall (fun b => Board.userId b = Token.userId q) l
    /\ fst (handle list (snd (handle create s)))
       = mkRes 200
           (BoardList
              (l ++ if (Token.userId p =? Token.userId q)%string
                    then [Board.mk (uuid_of (uuid_counter s)) n
                                   (Token.userId p)]
                    else [])).
Proof.
  intros Hc Hl Hap Hp Haq Hq Hn Hne. apply String.eqb_neq in Hp, Hq, Hne.
  unfold handle. rewrite Hc, Hl.
  rewrite !(authenticateToken_next _ _ _ _ Haq),
          (authenticateToken_next _ _ _ _ Hap).
  unfold get_boards, post_boards. rewrite Hp, Hq, Hn.
  cbn [truthy_str str_of]. rewrite Hne. cbn [negb]. run_store.
  eexists. split; [reflexivity|]. split.
  - apply Forall_forall. intros b Hb. apply filter_In in Hb.
    now apply String.eqb_eq.
  - rewrite filter_app. cbn [filter Board.userId]. reflexivity.
Qed.

(** X19.  The GET routes write no row and draw no identifier. *)
Theorem get_routes_write_nothing (req : request) (s : db) :
  match req_route req with
  | GET_test | GET_boards | GET_board_tasks _ => True
  | _ => False
  end ->
  rows (snd (handle req s)) = rows s
  /\ uuid_counter (snd (handle req s)) = uuid_counter s.
Proof.
  unfold handle.
  destruct (req_route req); try contradiction; intros _;
    unfold authenticateToken;
    try (destruct (bearer_token (authorization req)) as [token|];
         [|split; reflexivity];
         destruct (jwt_verify token) as [e|p]; [split; reflexivity|]).
  - split; reflexivity.
  - unfold get_boards. run_store.
    destruct (_ =? _)%string; split; reflexivity.
  - unfold get_board_tasks. run_store.
    repeat match goal with
      | |- context [match ?x with _ => _ end] => destruct x
      end; split; reflexivity.
Qed.

(** X20.  A token signed for a payload and sent as
    [Authorization: Bearer <token>] gives its holder the boards of the
    payload's user, provided the token has no space in it and verifies
    to the payload it was signed for. *)
Theorem issued_token_lists_own_boards (req : request) (s : db)
    (p : Token.payload) :
  req_route req = GET_boards ->
  authorization req = Some ("Bearer " ++ jwt_sign p)%string ->
  has_space (jwt_sign p) = false ->
  jwt_verify (jwt_sign p) = JwtOk p ->
  Token.userId p <> "" ->
  fst (handle req s)
  = mkRes 200
      (BoardList (filter (fun b => (Board.userId b =? Token.userId p)%string)
                         (boards s))).
Proof.
  intros Hr Hh Hsp Hv Hu. apply String.eqb_neq in Hu.
  unfold handle, authenticateToken, bearer_token. rewrite Hr, Hh.
  change ("Bearer " ++ jwt_sign p)%string
    with ("Bearer" ++ String " " (jwt_sign p))%string.
  rewrite (split_space_first "" "Bearer" (jwt_sign p) eq_refl),
          (split_space_no_space "" (jwt_sign p) Hsp).
  cbn [String.eqb Ascii.eqb Bool.eqb append nth_error]. rewrite Hv.
  unfold get_boards. rewrite Hu. run_store. reflexivity.
Qed.

End Behaviour.

(* ------------------------------------------------------------------ *)
(** ** The properties on concrete runs *)

Module Run.
Import Demo.

Lemma run_reachable (reqs : list request) (s : db) :
  reachable s -> reachable (snd (run reqs s)).
Proof.
  revert s. induction reqs as [|r reqs IH]; intros s Hs; [exact Hs|].
  cbn [run].
  pose proof (IH _ (reach_step s r Hs)) as H.
  destruct (handle r s) as [res s']. cbn [snd] in H.
  destruct (run reqs s') as [out s'']. exact H.
Qed.

Example parseInt_values :
  map parseInt [JStr " 42abc"; JStr "-7"; JStr "abc"; JStr ""; JNum (60 # 1);
                JNum (-3 # 2); JArr [JNum (50 # 1)]; JNull; JBool true;
                JObj []; progress_object; JArr [progress_object]]
  = [Some (Some 42); Some (Some (-7)); Some None; Some None; Some (Some 60);
     Some (Some (-1)); Some (Some 50); Some None; Some None; Some None;
     None; None].
Proof. vm_compute. reflexivity. Qed.

Example new_Date_values :
  map new_Date [JStr "2026-01-15"; JStr "garbage"; JNum (0 # 1);
                JNum (10000000000000000 # 1); JBool true; JUndefined;
                progress_object]
  = [Some (ValidDate (JStr "2026-01-15")); Some InvalidDate;
     Some (ValidDate (JNum (0 # 1))); Some InvalidDate;
     Some (ValidDate (JBool true)); Some InvalidDate; None].
Proof. vm_compute. reflexivity. Qed.

Example bearer_token_values :
  map bearer_token [None; Some "Bearer abc"; Some "Bearer"; Some "Bearer ";
                    Some ""]
  = [None; Some "abc"; None; Some ""; Some ""].
Proof. vm_compute. reflexivity. Qed.

(** The example run of the specification: a task created without a
    status is "todo" at 0; then "inprogress" without progress gives 25,
    progress 60 is taken while in progress, and "done" gives 100. *)
Example status_progress_run :
  map shown
      (fst (run [ mkReq (POST_board_tasks "id-1") (bearer "id-0")
                        (body_task (Some "Buy milk") JUndefined JUndefined);
                  mkReq (PUT_task "id-4") (bearer "id-0")
                        (body_task None (JStr "inprogress") JUndefined);
                  mkReq (PUT_task "id-4") (bearer "id-0")
                        (body_task None JUndefined (JNum (60 # 1)));
                  mkReq (PUT_task "id-4") (bearer "id-0")
                        (body_task None (JStr "done") JUndefined) ]
                alice_and_bob))
  = [Some ("todo", 0); Some ("inprogress", 25); Some ("inprogress", 60);
     Some ("done", 100)].
Proof. vm_compute. reflexivity. Qed.

(** Settle a closed side condition by evaluation. *)
Ltac evaluate :=
  first [ vm_compute; reflexivity
        | lia
        | vm_compute; discriminate
        | let H := fresh in intros H; vm_compute in H; discriminate H ].

Lemma task_writes_keep_policy_witness :
  (exists t, res_json (fst (handle alice_starts alice_and_bob)) = TaskJson t
             /\ In t (tasks (snd (handle alice_starts alice_and_bob)))
             /\ task_ok t)
  /\ Forall task_ok (tasks (snd (handle alice_starts alice_and_bob))).
Proof.
  apply (task_writes_keep_policy (R := runtime)).
  - apply run_reachable, reach_empty.
  - right. exists "id-2". reflexivity.
  - reflexivity.
Defined.

Lemma signup_password_policy_witness :
  let req := mkReq POST_auth_signup None (body_login "alice@x.org" "Passw0rdA") in
  password_policy (Body.password (req_body req)) = true
  /\ res_status (fst (handle req empty_db)) = 201.
Proof.
  intros req. split; [reflexivity|].
  apply (signup_password_policy (R := runtime) req empty_db);
    reflexivity.
Defined.

Lemma login_rejects_empty_hash_witness :
  res_status
    (fst (handle (mkReq POST_auth_login None
                        (body_login "carol@x.org" "Passw0rdC"))
                 carol_oauth)) = 401.
Proof.
  apply (login_rejects_empty_hash (R := runtime) _ carol_oauth
           "carol@x.org" "Passw0rdC"
           (User.mk "id-0" "carol@x.org" "" (Some "g-1")));
    try reflexivity; discriminate.
Defined.

Lemma authenticateToken_rejects_witness :
  handle (mkReq GET_boards None Body.empty) alice_and_bob
  = (sendStatus 401, alice_and_bob)
  /\ handle (mkReq (DELETE_board "id-1") (Some "Bearer old:id-0") Body.empty)
            alice_and_bob
     = (sendStatus 403, alice_and_bob).
Proof.
  split.
  - apply (authenticateToken_rejects (R := runtime)); reflexivity.
  - apply (proj2 (authenticateToken_rejects (R := runtime)
                    (mkReq (DELETE_board "id-1") (Some "Bearer old:id-0")
                           Body.empty)
                    alice_and_bob eq_refl)
             "old:id-0" TokenExpiredError); reflexivity.
Defined.

Lemma delete_board_cascades_witness :
  let req := mkReq (DELETE_board "id-1") (bearer "id-0") Body.empty in
  tasks alice_and_bob <> []
  /\ forall t, In t (tasks (snd (handle req alice_and_bob))) ->
               Task.boardId t <> "id-1".
Proof.
  intros req. split; [vm_compute; discriminate|].
  apply (delete_board_cascades (R := runtime) req alice_and_bob "id-1");
    vm_compute; reflexivity.
Defined.

(** C4, as stated, fails: Alice owns the task and her update sets the
    status to "inprogress" without a progress, but its start date is no
    date; the answer is 500 and the stored progress stays 0. *)
Lemma inprogress_update_with_bad_date_is_500 :
  req_route alice_starts_garbage = PUT_task "id-2"
  /\ authenticated_as alice_starts_garbage = Some alice
  /\ task_resource alice_and_bob "id-2" = OwnedBy (Token.userId alice)
  /\ Body.status (req_body alice_starts_garbage) = JStr "inprogress"
  /\ Body.progress (req_body alice_starts_garbage) = JUndefined
  /\ fst (handle alice_starts_garbage alice_and_bob)
     = message 500 "Error updating task."
  /\ success (fst (handle alice_starts_garbage alice_and_bob)) = false
  /\ option_map Task.progress
       (stored_task (snd (handle alice_starts_garbage alice_and_bob)) "id-2")
     = Some 0.
Proof. vm_compute. repeat split. Qed.

Lemma update_inprogress_defaults_to_25_witness :
  exists t',
    fst (handle alice_starts_on_date alice_and_bob) = mkRes 200 (TaskJson t')
    /\ stored_task (snd (handle alice_starts_on_date alice_and_bob)) "id-2"
       = Some t'
    /\ Task.status t' = "inprogress"
    /\ Task.progress t' = 25.
Proof.
  exact (update_inprogress_defaults_to_25 (R := runtime)
           alice_starts_on_date alice_and_bob "id-2" alice
           (Task.mk "id-2" "Buy milk" None "todo" None None None 0 "id-1")
           ltac:(evaluate) ltac:(evaluate) ltac:(evaluate) ltac:(evaluate)
           ltac:(evaluate) ltac:(evaluate) ltac:(evaluate) ltac:(evaluate)).
Defined.

(** C10, as stated, fails: with status "inprogress" and the progress
    "abc", which is not parseable as an integer, but a start date that
    is no date, Alice's update of her task and her creation of a task
    on her board are both answered 500; the stored progress stays 0 and
    no task is created. *)
Lemma invalid_progress_with_bad_date_is_500 :
  authenticated_as alice_starts_abc_garbage = Some alice
  /\ authenticated_as alice_creates_abc_garbage = Some alice
  /\ task_resource alice_and_bob "id-2" = OwnedBy (Token.userId alice)
  /\ board_resource alice_and_bob "id-1" = OwnedBy (Token.userId alice)
  /\ Body.status (req_body alice_starts_abc_garbage) = JStr "inprogress"
  /\ Body.progress (req_body alice_starts_abc_garbage) = JStr "abc"
  /\ parseInt (JStr "abc") = Some None
  /\ fst (handle alice_starts_abc_garbage alice_and_bob)
     = message 500 "Error updating task."
  /\ option_map Task.progress
       (stored_task (snd (handle alice_starts_abc_garbage alice_and_bob))
                    "id-2")
     = Some 0
  /\ fst (handle alice_creates_abc_garbage alice_and_bob)
     = message 500 "Error creating task."
  /\ tasks (snd (handle alice_creates_abc_garbage alice_and_bob))
     = tasks alice_and_bob.
Proof. vm_compute. repeat split. Qed.

(** A progress that is an object with a key [toString] makes
    [parseInt] raise before the [try]: neither handler answers, and
    nothing is looked up or written. *)
Example progress_object_raises :
  parseInt progress_object = None
  /\ handle alice_starts_object alice_and_bob = (uncaught, alice_and_bob)
  /\ handle alice_creates_object alice_and_bob = (uncaught, alice_and_bob)
  /\ handle bob_updates_object alice_and_bob = (uncaught, alice_and_bob).
Proof. vm_compute. repeat split. Qed.

Lemma invalid_progress_update_25_create_0_witness :
  (exists t',
      fst (handle alice_starts_abc alice_and_bob) = mkRes 200 (TaskJson t')
      /\ Task.progress t' = 25)
  /\ (exists t',
        fst (handle alice_creates_abc alice_and_bob) = mkRes 201 (TaskJson t')
        /\ Task.progress t' = 0).
Proof.
  destruct (invalid_progress_update_25_create_0 (R := runtime) (JStr "abc")
              eq_refl) as [Hupdate Hcreate].
  split.
  - pose proof (Hupdate alice_starts_abc alice_and_bob "id-2" alice
                  (Task.mk "id-2" "Buy milk" None "todo" None None None 0
                           "id-1")
                  ltac:(evaluate) ltac:(evaluate) ltac:(evaluate)
                  ltac:(evaluate) ltac:(evaluate) ltac:(evaluate)
                  ltac:(evaluate) ltac:(evaluate))
      as (t' & Hres & _ & _ & Hp).
    exists t'. split; [exact Hres|exact Hp].
  - pose proof (Hcreate alice_creates_abc alice_and_bob "id-1" alice
                  ltac:(evaluate) ltac:(evaluate) ltac:(evaluate)
                  ltac:(evaluate) ltac:(evaluate) ltac:(evaluate)
                  ltac:(evaluate) ltac:(evaluate))
      as (t' & Hres & _ & _ & Hp).
    exists t'. split; [exact Hres|exact Hp].
Defined.

(** C5, as stated, fails: Alice owns the task, its status is "todo",
    the body has a progress and no status, and the request is answered
    400 instead of succeeding. *)
Lemma progress_only_is_rejected :
  authenticated_as alice_progress_only = Some alice
  /\ task_resource alice_and_bob "id-2" = OwnedBy (Token.userId alice)
  /\ option_map Task.status (stored_task alice_and_bob "id-2") = Some "todo"
  /\ Body.status (req_body alice_progress_only) = JUndefined
  /\ Body.progress (req_body alice_progress_only) = JNum (60 # 1)
  /\ fst (handle alice_progress_only alice_and_bob)
     = message 400 "Progress cannot be updated..."
  /\ success (fst (handle alice_progress_only alice_and_bob)) = false.
Proof. vm_compute. repeat split. Qed.

Lemma progress_without_status_dropped_witness :
  exists t',
    fst (handle alice_retitles alice_and_bob) = mkRes 200 (TaskJson t')
    /\ stored_task (snd (handle alice_retitles alice_and_bob)) "id-2" = Some t'
    /\ Task.title t' = "Buy oat milk"
    /\ Task.progress t' = 0
    /\ Task.status t' = "todo".
Proof.
  pose proof (progress_without_status_dropped (R := runtime) alice_retitles
                alice_and_bob "id-2" alice
                (Task.mk "id-2" "Buy milk" None "todo" None None None 0 "id-1")
                60
                ltac:(evaluate) ltac:(evaluate) ltac:(evaluate)
                ltac:(evaluate) ltac:(evaluate) ltac:(evaluate)
                ltac:(evaluate) ltac:(evaluate) ltac:(evaluate)
                ltac:(evaluate))
    as [Hyes _].
  destruct (Hyes ltac:(evaluate)) as (Hres & Hst & Hp & Hs).
  eexists. split; [exact Hres|]. split; [exact Hst|].
  split; [vm_compute; reflexivity|]. split; [exact Hp|exact Hs].
Defined.

(** C2, as stated, fails: Bob's update of a task under Alice's board is
    answered 400, which is neither 403 nor 404. *)
Lemma other_user_update_answers_400 :
  authenticated_as bob_empty_update = Some bob
  /\ targets (req_route bob_empty_update) alice_and_bob
     = Some (OwnedBy (Token.userId alice))
  /\ Token.userId alice <> Token.userId bob
  /\ res_status (fst (handle bob_empty_update alice_and_bob)) = 400
  /\ ~ (res_status (fst (handle bob_empty_update alice_and_bob)) = 403
        \/ res_status (fst (handle bob_empty_update alice_and_bob)) = 404).
Proof.
  vm_compute. repeat split; try discriminate.
  intros [H|H]; discriminate H.
Qed.

Lemma other_user_is_denied_witness :
  boards (snd (handle bob_renames alice_and_bob)) = boards alice_and_bob
  /\ tasks (snd (handle bob_renames alice_and_bob)) = tasks alice_and_bob
  /\ (exists m, fst (handle bob_renames alice_and_bob) = message 404 m)
  /\ (exists m, fst (handle bob_deletes_task alice_and_bob) = message 403 m)
  /\ (exists m, fst (handle bob_empty_update alice_and_bob) = message 400 m)
  /\ fst (handle bob_updates_object alice_and_bob) = uncaught.
Proof.
  pose proof (other_user_is_denied (R := runtime) bob_renames alice_and_bob
                bob "id-0" ltac:(evaluate) ltac:(evaluate) ltac:(evaluate)
                ltac:(evaluate)) as (Hb & Ht & _ & H404 & _).
  pose proof (other_user_is_denied (R := runtime) bob_deletes_task
                alice_and_bob bob "id-0" ltac:(evaluate) ltac:(evaluate)
                ltac:(evaluate) ltac:(evaluate)) as (_ & _ & _ & H403 & _).
  pose proof (other_user_is_denied (R := runtime) bob_empty_update
                alice_and_bob bob "id-0" ltac:(evaluate) ltac:(evaluate)
                ltac:(evaluate) ltac:(evaluate)) as (_ & _ & H400 & _ & _).
  pose proof (other_user_is_denied (R := runtime) bob_updates_object
                alice_and_bob bob "id-0" ltac:(evaluate) ltac:(evaluate)
                ltac:(evaluate) ltac:(evaluate)) as (_ & _ & _ & _ & Hraise).
  split; [exact Hb|]. split; [exact Ht|].
  split; [exact (H404 ltac:(evaluate))|].
  split; [exact (H403 ltac:(evaluate))|].
  split; [exact (H400 ltac:(evaluate))|].
  exact (Hraise ltac:(evaluate)).
Defined.

(** C6, as stated, fails: Bob's PUT on Alice's board without a name is
    answered 400, not 404. *)
Lemma foreign_board_put_answers_400 :
  authenticated_as bob_renames_nothing = Some bob
  /\ path_resource (req_route bob_renames_nothing) alice_and_bob
     = Some (OwnedBy (Token.userId alice))
  /\ Token.userId alice <> Token.userId bob
  /\ res_status (fst (handle bob_renames_nothing alice_and_bob)) = 400
  /\ res_status (fst (handle bob_renames_nothing alice_and_bob)) <> 404.
Proof. vm_compute. repeat split; discriminate. Qed.

Lemma missing_404_foreign_403_or_404_witness :
  res_status (fst (handle bob_renames alice_and_bob)) = 404
  /\ res_status (fst (handle bob_deletes_task alice_and_bob)) = 403
  /\ res_status (fst (handle bob_lists_nothing alice_and_bob)) = 404
  /\ res_status (fst (handle bob_renames_nothing alice_and_bob)) = 400.
Proof.
  pose proof (missing_404_foreign_403_or_404 (R := runtime) bob_renames
                alice_and_bob bob (OwnedBy "id-0")
                ltac:(evaluate) ltac:(evaluate) ltac:(evaluate))
    as [Hboard _].
  pose proof (missing_404_foreign_403_or_404 (R := runtime) bob_deletes_task
                alice_and_bob bob (OwnedBy "id-0")
                ltac:(evaluate) ltac:(evaluate) ltac:(evaluate))
    as [Htask _].
  pose proof (missing_404_foreign_403_or_404 (R := runtime) bob_lists_nothing
                alice_and_bob bob NotFound
                ltac:(evaluate) ltac:(evaluate) ltac:(evaluate))
    as [Hmissing _].
  pose proof (missing_404_foreign_403_or_404 (R := runtime)
                bob_renames_nothing alice_and_bob bob (OwnedBy "id-0")
                ltac:(evaluate) ltac:(evaluate) ltac:(evaluate))
    as [_ Hfails].
  split; [exact (Hboard ltac:(evaluate) ltac:(evaluate))|].
  split; [exact (Htask ltac:(evaluate) ltac:(evaluate))|].
  split; [exact (Hmissing ltac:(evaluate))|].
  exact (Hfails ltac:(evaluate)).
Defined.

Lemma bearer_token_second_word_witness :
  bearer_token (Some ("Bearer" ++ " " ++ "abc.def")%string) = Some "abc.def"
  /\ ("Bearer" <> "" -> bearer_token (Some "Bearer") = None).
Proof.
  exact (bearer_token_second_word "Bearer" "abc.def"
           ltac:(evaluate) ltac:(evaluate)).
Defined.

Lemma invalid_body_400_before_lookup_witness :
  exists m, handle bob_renames_nothing alice_and_bob
            = (message 400 m, alice_and_bob).
Proof.
  exact (invalid_body_400_before_lookup (R := runtime) bob_renames_nothing
           alice_and_bob bob
           ltac:(evaluate) ltac:(evaluate) ltac:(evaluate) ltac:(evaluate)).
Defined.

Lemma signup_used_email_rejected_witness :
  res_status (fst (handle alice_signs_up alice_and_bob)) = 400
  /\ rows (snd (handle alice_signs_up alice_and_bob)) = rows alice_and_bob.
Proof.
  exact (signup_used_email_rejected (R := runtime) alice_signs_up
           alice_and_bob
           (User.mk "id-0" "alice@x.org" "$2b$10$Passw0rdA" None)
           ltac:(evaluate) ltac:(evaluate)).
Defined.

Lemma login_sound_witness :
  res_status (fst (handle alice_logs_in alice_and_bob)) = 200
  /\ rows (snd (handle alice_logs_in alice_and_bob)) = rows alice_and_bob
  /\ exists u password,
       Body.password (req_body alice_logs_in) = Some password
       /\ find (fun u => (User.email u
                          =? str_of (Body.email (req_body alice_logs_in)))%string)
               (users alice_and_bob) = Some u
       /\ User.passwordHash u <> ""
       /\ bcrypt_compare password (User.passwordHash u) = true
       /\ res_json (fst (handle alice_logs_in alice_and_bob))
          = LoginToken "Login successful"
              (jwt_sign (Token.mk (User.id u) (User.email u))).
Proof.
  pose proof (login_sound (R := runtime) alice_logs_in alice_and_bob
                ltac:(evaluate)) as [Hrows Hok].
  split; [evaluate|]. split; [exact Hrows|].
  exact (Hok ltac:(evaluate)).
Defined.

Lemma signup_then_login_witness :
  res_status (fst (handle alice_signs_up empty_db)) = 201
  /\ fst (handle alice_logs_in (snd (handle alice_signs_up empty_db)))
     = mkRes 200 (LoginToken "Login successful"
                    (jwt_sign (Token.mk (uuid_of (uuid_counter empty_db))
                                        "alice@x.org"))).
Proof.
  exact (signup_then_login (R := runtime) alice_signs_up alice_logs_in
           empty_db "alice@x.org" "Passw0rdA"
           ltac:(evaluate) ltac:(evaluate) ltac:(evaluate) ltac:(evaluate)
           ltac:(evaluate) ltac:(evaluate) ltac:(evaluate) ltac:(evaluate)
           ltac:(evaluate) ltac:(evaluate) ltac:(evaluate)).
Defined.

Lemma google_callback_idempotent_witness :
  res_status (fst (handle carol_google empty_db)) = 302
  /\ fst (handle carol_google (snd (handle carol_google empty_db)))
     = fst (handle carol_google empty_db)
  /\ rows (snd (handle carol_google (snd (handle carol_google empty_db))))
     = rows (snd (handle carol_google empty_db)).
Proof.
  split; [evaluate|].
  exact (google_callback_idempotent (R := runtime) carol_google empty_db _
           ltac:(evaluate)).
Defined.

Lemma google_callback_keeps_logins_witness :
  option_map User.googleId
    (find (fun u => (User.email u =? "alice@x.org")%string)
          (users (snd (handle alice_google alice_and_bob))))
  = Some (Some "g-2")
  /\ fst (handle alice_logs_in (snd (handle alice_google alice_and_bob)))
     = fst (handle alice_logs_in alice_and_bob).
Proof.
  split; [evaluate|].
  exact (google_callback_keeps_logins (R := runtime) alice_google
           alice_logs_in alice_and_bob _ ltac:(evaluate) ltac:(evaluate)).
Defined.

Lemma reachable_unique_users_witness : unique_users alice_and_bob.
Proof.
  apply (reachable_unique_users (R := runtime)).
  apply run_reachable, reach_empty.
Defined.

Lemma stored_task_has_its_board_witness :
  exists b, In b (boards alice_and_bob)
            /\ Board.id b = "id-1"
            /\ Some "id-0" = Some (Board.userId b).
Proof.
  exact (stored_task_has_its_board (R := runtime) alice_and_bob "id-2"
           (Task.mk "id-2" "Buy milk" None "todo" None None None 0 "id-1")
           (Some "id-0")
           ltac:(apply run_reachable, reach_empty) ltac:(evaluate)).
Defined.

Lemma numeric_progress_is_stored_witness :
  (exists t,
      fst (handle alice_creates_at_60 alice_and_bob) = mkRes 201 (TaskJson t)
      /\ In t (tasks (snd (handle alice_creates_at_60 alice_and_bob)))
      /\ Task.progress t = 60)
  /\ (exists t',
        fst (handle alice_updates_to_60 alice_and_bob)
        = mkRes 200 (TaskJson t')
        /\ stored_task (snd (handle alice_updates_to_60 alice_and_bob)) "id-2"
           = Some t'
        /\ Task.progress t' = 60).
Proof.
  pose proof (numeric_progress_is_stored (R := runtime) 60 ltac:(lia))
    as [Hcreate Hupdate].
  split.
  - exact (Hcreate alice_creates_at_60 alice_and_bob "id-1" alice
             ltac:(evaluate) ltac:(evaluate) ltac:(evaluate) ltac:(evaluate)
             ltac:(evaluate) ltac:(evaluate) ltac:(evaluate)
             ltac:(evaluate)).
  - exact (Hupdate alice_updates_to_60 alice_and_bob "id-2" alice
             (Task.mk "id-2" "Buy milk" None "todo" None None None 0 "id-1")
             ltac:(evaluate) ltac:(evaluate) ltac:(evaluate) ltac:(evaluate)
             ltac:(evaluate) ltac:(evaluate) ltac:(evaluate)
             ltac:(evaluate)).
Defined.

Lemma create_task_then_list_witness :
  exists l t,
    fst (handle alice_lists_tasks alice_and_bob) = mkRes 200 (TaskList l)
    /\ fst (handle alice_creates alice_and_bob) = mkRes 201 (TaskJson t)
    /\ fst (handle alice_lists_tasks (snd (handle alice_creates alice_and_bob)))
       = mkRes 200 (TaskList (l ++ [t])).
Proof.
  exact (create_task_then_list (R := runtime) alice_creates alice_lists_tasks
           alice_and_bob "id-1" alice
           ltac:(evaluate) ltac:(evaluate) ltac:(evaluate) ltac:(evaluate)
           ltac:(evaluate) ltac:(evaluate) ltac:(evaluate) ltac:(evaluate)).
Defined.

Lemma delete_task_removes_it_witness :
  fst (handle alice_deletes_task alice_and_bob) = sendStatus 204
  /\ stored_task (snd (handle alice_deletes_task alice_and_bob)) "id-2" = None
  /\ (forall j, j <> "id-2" ->
        stored_task (snd (handle alice_deletes_task alice_and_bob)) j
        = stored_task alice_and_bob j)
  /\ boards (snd (handle alice_deletes_task alice_and_bob))
     = boards alice_and_bob.
Proof.
  exact (delete_task_removes_it (R := runtime) alice_deletes_task
           alice_and_bob "id-2" alice
           ltac:(evaluate) ltac:(evaluate) ltac:(evaluate) ltac:(evaluate)).
Defined.

Lemma progress_is_adjustable_in_progress_witness :
  exists t',
    fst (handle alice_progress_only alice_in_progress)
    = mkRes 200 (TaskJson t')
    /\ stored_task (snd (handle alice_progress_only alice_in_progress)) "id-2"
       = Some t'
    /\ Task.progress t' = 60
    /\ Task.status t' = "inprogress".
Proof.
  exact (progress_is_adjustable_in_progress (R := runtime)
           alice_progress_only alice_in_progress "id-2" alice
           (Task.mk "id-2" "Buy milk" None "inprogress" None None None 25
                    "id-1")
           60
           ltac:(evaluate) ltac:(evaluate) ltac:(evaluate) ltac:(evaluate)
           ltac:(evaluate) ltac:(evaluate) ltac:(evaluate) ltac:(evaluate)
           ltac:(evaluate) ltac:(evaluate)).
Defined.

Lemma create_without_status_is_todo_witness :
  exists t,
    fst (handle alice_creates alice_and_bob) = mkRes 201 (TaskJson t)
    /\ In t (tasks (snd (handle alice_creates alice_and_bob)))
    /\ Task.status t = "todo" /\ Task.progress t = 0
    /\ Task.title t = str_of (Body.title (req_body alice_creates))
    /\ Task.boardId t = "id-1".
Proof.
  exact (create_without_status_is_todo (R := runtime) alice_creates
           alice_and_bob "id-1" alice
           ltac:(evaluate) ltac:(evaluate) ltac:(evaluate) ltac:(evaluate)
           ltac:(evaluate) ltac:(evaluate) ltac:(evaluate)).
Defined.

Lemma delete_board_removes_only_it_witness :
  fst (handle alice_deletes_board alice_and_bob) = sendStatus 204
  /\ board_resource (snd (handle alice_deletes_board alice_and_bob)) "id-1"
     = NotFound
  /\ (forall j, j <> "id-1" ->
        board_resource (snd (handle alice_deletes_board alice_and_bob)) j
        = board_resource alice_and_bob j
        /\ filter (fun t => (Task.boardId t =? j)%string)
                  (tasks (snd (handle alice_deletes_board alice_and_bob)))
           = filter (fun t => (Task.boardId t =? j)%string)
                    (tasks alice_and_bob)).
Proof.
  exact (delete_board_removes_only_it (R := runtime) alice_deletes_board
           alice_and_bob "id-1" alice
           ltac:(evaluate) ltac:(evaluate) ltac:(evaluate) ltac:(evaluate)).
Defined.

Lemma board_owner_never_changes_witness :
  board_resource alice_and_bob "id-1" = OwnedBy "id-0"
  /\ board_resource (snd (handle alice_renames alice_and_bob)) "id-1"
     = OwnedBy "id-0"
  /\ "id-0" = "id-0".
Proof.
  split; [evaluate|]. split; [evaluate|].
  exact (board_owner_never_changes (R := runtime) alice_renames
           alice_and_bob "id-1" "id-0" "id-0"
           ltac:(evaluate) ltac:(evaluate)).
Defined.

Lemma rename_board_is_stored_witness :
  fst (handle alice_renames alice_and_bob)
  = message 200 "Board updated successfully."
  /\ find (fun b => (Board.id b =? "id-1")%string)
          (boards (snd (handle alice_renames alice_and_bob)))
     = Some (Board.mk "id-1" "House" "id-0")
  /\ tasks (snd (handle alice_renames alice_and_bob)) = tasks alice_and_bob.
Proof.
  exact (rename_board_is_stored (R := runtime) alice_renames alice_and_bob
           "id-1" alice (Board.mk "id-1" "Home" "id-0") "House"
           ltac:(evaluate) ltac:(evaluate) ltac:(evaluate) ltac:(evaluate)
           ltac:(evaluate) ltac:(evaluate) ltac:(evaluate)).
Defined.

Lemma create_board_then_list_witness :
  exists l,
    fst (handle alice_lists_boards alice_and_bob) = mkRes 200 (BoardList l)
    /\ Forall (fun b => Board.userId b = Token.userId alice) l
    /\ fst (handle alice_lists_boards
                   (snd (handle alice_adds_board alice_and_bob)))
       = mkRes 200
           (BoardList
              (l ++ if (Token.userId alice =? Token.userId alice)%string
                    then [Board.mk (uuid_of (uuid_counter alice_and_bob))
                                   "Work" (Token.userId alice)]
                    else [])).
Proof.
  exact (create_board_then_list (R := runtime) alice_adds_board
           alice_lists_boards alice_and_bob alice alice "Work"
           ltac:(evaluate) ltac:(evaluate) ltac:(evaluate) ltac:(evaluate)
           ltac:(evaluate) ltac:(evaluate) ltac:(evaluate) ltac:(evaluate)).
Defined.

Lemma get_routes_write_nothing_witness :
  rows (snd (handle alice_lists_tasks alice_and_bob)) = rows alice_and_bob
  /\ uuid_counter (snd (handle alice_lists_tasks alice_and_bob))
     = uuid_counter alice_and_bob.
Proof.
  exact (get_routes_write_nothing (R := runtime) alice_lists_tasks
           alice_and_bob I).
Defined.

Lemma issued_token_lists_own_boards_witness :
  fst (handle alice_lists_boards alice_and_bob)
  = mkRes 200
      (BoardList (filter (fun b => (Board.userId b =? Token.userId alice)%string)
                         (boards alice_and_bob))).
Proof.
  exact (issued_token_lists_own_boards (R := runtime) alice_lists_boards
           alice_and_bob alice
           ltac:(evaluate) ltac:(evaluate) ltac:(evaluate) ltac:(evaluate)
           ltac:(evaluate)).
Defined.

End Run.
